(** * Notification gateway: intake, status routes and the delivery core

    A shallow embedding of the API gateway's notification routes
    (the route handlers and their helper functions), together with the
    status state machine, the retry manager and the circuit breaker of the
    delivery core.  The gateway part follows the TypeScript source line by
    line; the delivery core has no source file and is modelled from the
    design document, which every such definition says in its comment. *)

From Stdlib Require Import ZArith List String Bool Lia QArith Qminmax Lqa.
From Stdlib Require Import DecimalString.
Import ListNotations.

Local Open Scope string_scope.
Local Open Scope Z_scope.

(** ** The JavaScript runtime the handlers run in *)

Module Js.

(** The result of [Date#toISOString()]: the instant it renders, in
    milliseconds since the epoch.  The rendering itself is not modelled. *)
Inductive IsoString : Type := ISO (epoch_ms : Z).

Definition epoch_of (t : IsoString) : Z := match t with ISO ms => ms end.

Section Runtime.
(** [Line] is what [console.log] prints. *)
Variable Line : Type.

(** What a handler can observe or change outside its own locals:
    the console, the server's error log, the clock read by [Date.now()],
    and the random source behind [uuidv4()] with the number of
    identifiers drawn so far. *)
Record World : Type := mkWorld {
  console : list Line;
  error_log : list string;
  clock : Z;
  entropy : nat -> string;
  drawn : nat
}.

(** An [async] computation either resolves or rejects (throws). *)
Inductive Outcome (A : Type) : Type :=
| Resolved (a : A)
| Rejected (reason : string).

Definition Async (A : Type) : Type := World -> Outcome A * World.

Definition ret {A} (a : A) : Async A := fun w => (Resolved A a, w).

Definition bind {A B} (m : Async A) (k : A -> Async B) : Async B :=
  fun w =>
    match m w with
    | (Resolved _ a, w') => k a w'
    | (Rejected _ r, w') => (Rejected B r, w')
    end.

(** [try { body } catch (error) { handler }] *)
Definition try_catch {A} (body : Async A) (handler : string -> Async A)
  : Async A :=
  fun w =>
    match body w with
    | (Resolved _ a, w') => (Resolved A a, w')
    | (Rejected _ r, w') => handler r w'
    end.

(** [console.log(line)] *)
Definition console_log (l : Line) : Async unit :=
  fun w =>
    (Resolved unit tt,
     mkWorld (console w ++ [l]) (error_log w) (clock w) (entropy w) (drawn w)).

(** [fastify.log.error(what, error)] *)
Definition log_error (what : string) : Async unit :=
  fun w =>
    (Resolved unit tt,
     mkWorld (console w) (error_log w ++ [what]) (clock w) (entropy w) (drawn w)).

(** [Date.now()] *)
Definition Date_now : Async Z := fun w => (Resolved Z (clock w), w).

(** [new Date().toISOString()]: the clock is a time value, so this date is
    never invalid. *)
Definition new_Date_toISOString : Async IsoString :=
  fun w => (Resolved IsoString (ISO (clock w)), w).

(** The largest magnitude of a time value: a [Date] holds instants up to
    8.64e15 milliseconds on either side of the epoch. *)
Definition max_time : Z := 8640000000000000.

Definition time_valid (ms : Z) : bool :=
  (- max_time <=? ms) && (ms <=? max_time).

(** [new Date(ms).toISOString()]: beyond the range of time values the date
    is invalid and [toISOString] throws a [RangeError]. *)
Definition Date_toISOString (ms : Z) : Async IsoString :=
  fun w =>
    if time_valid ms then (Resolved IsoString (ISO ms), w)
    else (Rejected IsoString "RangeError: Invalid time value", w).

(** [uuidv4()]: the next identifier of the random source. *)
Definition uuidv4 : Async string :=
  fun w =>
    (Resolved string (entropy w (drawn w)),
     mkWorld (console w) (error_log w) (clock w) (entropy w) (S (drawn w))).

(** Time passing between two requests. *)
Definition elapse (ms : Z) (w : World) : World :=
  mkWorld (console w) (error_log w) (clock w + ms) (entropy w) (drawn w).
End Runtime.

Arguments mkWorld {Line}.
Arguments console {Line}.
Arguments error_log {Line}.
Arguments clock {Line}.
Arguments entropy {Line}.
Arguments drawn {Line}.
Arguments Resolved {A}.
Arguments Rejected {A}.
Arguments ret {Line A}.
Arguments bind {Line A B}.
Arguments try_catch {Line A}.
Arguments console_log {Line}.
Arguments log_error {Line}.
Arguments Date_now {Line}.
Arguments new_Date_toISOString {Line}.
Arguments Date_toISOString {Line}.
Arguments uuidv4 {Line}.
Arguments elapse {Line}.

End Js.

Declare Scope async_scope.
Delimit Scope async_scope with async.
Notation "x <- m ;; k" := (Js.bind m (fun x => k))
  (at level 61, m at next level, right associativity) : async_scope.
Notation "m ;;; k" := (Js.bind m (fun _ => k))
  (at level 61, right associativity) : async_scope.

(** ** The notification routes of the API gateway *)

Module Gateway.
Import Js.

(** Opaque key/value payloads ([variables], [metadata]). *)
Definition Json : Type := list (string * string).

(** The body of [POST /api/v1/notifications]; [priority] is optional and
    defaults to 5 when the handler destructures the body. *)
Record Request : Type := mkRequest {
  notification_type : string;
  user_id : string;
  template_code : string;
  variables : Json;
  request_id : string;
  priority : option Z;
  metadata : option Json
}.

Record Preferences : Type := mkPreferences {
  pref_email : bool;
  pref_push : bool
}.

Record User : Type := mkUser {
  u_user_id : string;
  u_name : string;
  u_email : string;
  preferences : Preferences
}.

Record Template : Type := mkTemplate {
  t_template_code : string;
  t_subject : string;
  t_content : string
}.

(** What the handler reads of an already processed request. *)
Record Existing : Type := mkExisting {
  e_notification_id : string;
  e_status : string;
  e_created_at : IsoString
}.

(** The argument of [createNotification]. *)
Record NotificationRecord : Type := mkNotificationRecord {
  n_notification_id : string;
  n_request_id : string;
  n_user_id : string;
  n_notification_type : string;
  n_template_code : string;
  n_variables : Json;
  n_priority : Z;
  n_metadata : option Json;
  n_status : string
}.

(** The argument of [queueNotification]. *)
Record QueueMessage : Type := mkQueueMessage {
  q_notification_id : string;
  q_notification_type : string;
  q_user_id : string;
  q_template_code : string;
  q_variables : Json;
  q_priority : Z;
  q_metadata : option Json
}.

(** The second argument of [updateNotificationStatus]. *)
Record StatusUpdate : Type := mkStatusUpdate {
  s_status : string;
  s_timestamp : IsoString;
  s_error : option string
}.

(** The body of [POST /api/v1/notifications/:notification_id/status]. *)
Record StatusBody : Type := mkStatusBody {
  b_status : string;
  b_timestamp : option IsoString;
  b_error : option string
}.

(** What [getNotificationById] returns. *)
Record StoredNotification : Type := mkStoredNotification {
  d_notification_id : string;
  d_user_id : string;
  d_notification_type : string;
  d_status : string;
  d_created_at : IsoString;
  d_updated_at : IsoString;
  d_sent_at : option IsoString;
  d_delivered_at : option IsoString;
  d_error : option string;
  d_retry_count : Z
}.

(** The lines the helper functions print with [console.log]. *)
Inductive Line : Type :=
| Creating (n : NotificationRecord)
| Queueing (m : QueueMessage)
| Updating (notification_id : string) (u : StatusUpdate).

Definition World : Type := Js.World Line.
Definition Async (A : Type) : Type := Js.Async Line A.

(** The [data] object of an intake response. *)
Record IntakeData : Type := mkIntakeData {
  r_notification_id : string;
  r_status : string;
  r_queued_at : IsoString;
  r_estimated_delivery : option IsoString
}.

(** The objects the handlers return. *)
Inductive Body (D : Type) : Type :=
| Success (data : D) (message : string)
| Acknowledged (message : string)
| Failure (error : string) (message : string).

Arguments Success {D}.
Arguments Acknowledged {D}.
Arguments Failure {D}.

(** A handler's answer: the status code set with [reply.code] (200 when
    the handler never sets it) and the returned object. *)
Record Reply (D : Type) : Type := mkReply {
  code : Z;
  body : Body D
}.

Arguments mkReply {D}.
Arguments code {D}.
Arguments body {D}.

(** *** Helper functions, as the source has them *)

Module Helpers.

Local Open Scope async_scope.

Definition checkExistingNotification (request_id : string)
  : option Existing :=
  None.

Definition getUserById (user_id : string) : option User :=
  Some (mkUser user_id "Test User" "test@example.com"
               (mkPreferences true true)).

Definition getTemplateByCode (template_code : string) : option Template :=
  Some (mkTemplate template_code "Test Template" "Hello {{name}}").

Definition createNotification (notification : NotificationRecord)
  : Async unit :=
  console_log (Creating notification).

Definition queueNotification (notification : QueueMessage) : Async unit :=
  console_log (Queueing notification).

Definition calculateEstimatedDelivery (priority : Z) : Async IsoString :=
  let delayMinutes := Z.max 1 (11 - priority) * 5 in
  now <- Date_now ;;
  Date_toISOString (now + delayMinutes * 60 * 1000).

Definition getNotificationById (notification_id : string)
  : Async (option StoredNotification) :=
  created_at <- new_Date_toISOString ;;
  updated_at <- new_Date_toISOString ;;
  ret (Some (mkStoredNotification
               notification_id
               "123e4567-e89b-12d3-a456-426614174000"
               "email"
               "pending"
               created_at
               updated_at
               None None None 0)).

Definition updateNotificationStatus (notification_id : string)
           (statusUpdate : StatusUpdate) : Async unit :=
  console_log (Updating notification_id statusUpdate).

End Helpers.

(** *** The route handlers

    The three read-only lookups are parameters of the handlers, so that a
    statement can speak about a user who opted out or a template that is
    unknown; [Source] below plugs in the helper functions of the source. *)

Section notificationRoutes.

Local Open Scope async_scope.

Variable checkExistingNotification : string -> option Existing.
Variable getUserById : string -> option User.
Variable getTemplateByCode : string -> option Template.

(** The object both opt-out branches of the handler return. *)
Definition skipped_reply : Async (Reply IntakeData) :=
  id <- uuidv4 ;;
  queued_at <- new_Date_toISOString ;;
  ret (mkReply 200
         (Success (mkIntakeData id "skipped" queued_at None)
                  "Notification skipped due to user preferences")).

(** [POST /api/v1/notifications] *)
Definition post_notification (req : Request) : Async (Reply IntakeData) :=
  let notification_type := notification_type req in
  let user_id := user_id req in
  let template_code := template_code req in
  let variables := variables req in
  let request_id := request_id req in
  let priority := match priority req with Some p => p | None => 5 end in
  let metadata := metadata req in
  try_catch
    (existingNotification <- ret (checkExistingNotification request_id) ;;
     match existingNotification with
     | Some existing =>
         ret (mkReply 200
                (Success (mkIntakeData (e_notification_id existing)
                                       (e_status existing)
                                       (e_created_at existing)
                                       None)
                         "Notification already processed (idempotent request)"))
     | None =>
         user <- ret (getUserById user_id) ;;
         match user with
         | None =>
             ret (mkReply 404
                    (Failure "User Not Found"
                             ("User with ID " ++ user_id ++ " not found")))
         | Some user =>
             if (notification_type =? "email")%string
                && negb (pref_email (preferences user))
             then skipped_reply
             else if (notification_type =? "push")%string
                     && negb (pref_push (preferences user))
             then skipped_reply
             else
               template <- ret (getTemplateByCode template_code) ;;
               match template with
               | None =>
                   ret (mkReply 400
                          (Failure "Template Not Found"
                                   ("Template with code " ++ template_code
                                    ++ " not found")))
               | Some _ =>
                   notification_id <- uuidv4 ;;
                   Helpers.createNotification
                     (mkNotificationRecord notification_id request_id
                        user_id notification_type template_code variables
                        priority metadata "pending") ;;;
                   Helpers.queueNotification
                     (mkQueueMessage notification_id notification_type
                        user_id template_code variables priority
                        metadata) ;;;
                   estimatedDelivery <-
                     Helpers.calculateEstimatedDelivery priority ;;
                   queued_at <- new_Date_toISOString ;;
                   ret (mkReply 200
                          (Success (mkIntakeData notification_id "queued"
                                      queued_at (Some estimatedDelivery))
                                   "Notification queued successfully"))
               end
         end
     end)
    (fun _ =>
       log_error "Error creating notification:" ;;;
       ret (mkReply 500
              (Failure "Internal Server Error"
                       "Failed to create notification"))).

(** [GET /api/v1/notifications/:notification_id] *)
Definition get_notification (notification_id : string)
  : Async (Reply StoredNotification) :=
  try_catch
    (notification <- Helpers.getNotificationById notification_id ;;
     match notification with
     | None =>
         ret (mkReply 404
                (Failure "Not Found"
                         ("Notification with ID " ++ notification_id
                          ++ " not found")))
     | Some notification =>
         ret (mkReply 200
                (Success notification
                         "Notification status retrieved successfully"))
     end)
    (fun _ =>
       log_error "Error getting notification status:" ;;;
       ret (mkReply 500
              (Failure "Internal Server Error"
                       "Failed to retrieve notification status"))).

(** [POST /api/v1/notifications/:notification_id/status] *)
Definition post_notification_status (notification_id : string)
           (update : StatusBody) : Async (Reply unit) :=
  try_catch
    (notification <- Helpers.getNotificationById notification_id ;;
     match notification with
     | None =>
         ret (mkReply 404
                (Failure "Not Found"
                         ("Notification with ID " ++ notification_id
                          ++ " not found")))
     | Some _ =>
         timestamp <- match b_timestamp update with
                      | Some t => ret t
                      | None => new_Date_toISOString
                      end ;;
         Helpers.updateNotificationStatus notification_id
           (mkStatusUpdate (b_status update) timestamp (b_error update)) ;;;
         ret (mkReply 200
                (Acknowledged "Notification status updated successfully"))
     end)
    (fun _ =>
       log_error "Error updating notification status:" ;;;
       ret (mkReply 500
              (Failure "Internal Server Error"
                       "Failed to update notification status"))).

End notificationRoutes.

(** The routes with the helper functions of the source plugged in. *)
Module Source.
Definition post_notification : Request -> Async (Reply IntakeData) :=
  Gateway.post_notification Helpers.checkExistingNotification
    Helpers.getUserById Helpers.getTemplateByCode.
Definition get_notification : string -> Async (Reply StoredNotification) :=
  Gateway.get_notification.
Definition post_notification_status
  : string -> StatusBody -> Async (Reply unit) :=
  Gateway.post_notification_status.
End Source.

(** *** Reading a world and a reply *)

(** The notifications handed to [createNotification] so far. *)
Fixpoint created (ls : list Line) : list NotificationRecord :=
  match ls with
  | [] => []
  | Creating n :: ls' => n :: created ls'
  | _ :: ls' => created ls'
  end.

(** The messages handed to [queueNotification] so far. *)
Fixpoint enqueued (ls : list Line) : list QueueMessage :=
  match ls with
  | [] => []
  | Queueing m :: ls' => m :: enqueued ls'
  | _ :: ls' => enqueued ls'
  end.

(** The notifications created for a given [request_id]. *)
Definition created_for (request_id : string) (w : World)
  : list NotificationRecord :=
  filter (fun n => (n_request_id n =? request_id)%string)
         (created (console w)).

Definition reply_of {D} (r : Outcome (Reply D) * World) : option (Reply D) :=
  match fst r with
  | Resolved rep => Some rep
  | Rejected _ => None
  end.

Definition data_of {D} (rep : Reply D) : option D :=
  match body rep with
  | Success d _ => Some d
  | _ => None
  end.

(** The [notification_id] an intake call answered with. *)
Definition returned_id (r : Outcome (Reply IntakeData) * World)
  : option string :=
  match reply_of r with
  | Some rep => option_map r_notification_id (data_of rep)
  | None => None
  end.

(** The [status] an intake call answered with. *)
Definition returned_status (r : Outcome (Reply IntakeData) * World)
  : option string :=
  match reply_of r with
  | Some rep => option_map r_status (data_of rep)
  | None => None
  end.

(** The estimated delivery instant an intake call answered with, in
    milliseconds since the epoch. *)
Definition returned_estimate (r : Outcome (Reply IntakeData) * World)
  : option Z :=
  match reply_of r with
  | Some rep =>
      match data_of rep with
      | Some d => option_map epoch_of (r_estimated_delivery d)
      | None => None
      end
  | None => None
  end.

Definition minutes (m : Z) : Z := m * 60 * 1000.

(** The status a status query reports for an identifier. *)
Definition queried_status (notification_id : string) (w : World)
  : option string :=
  match reply_of (Source.get_notification notification_id w) with
  | Some rep => option_map d_status (data_of rep)
  | None => None
  end.


(** The retry count a status query reports for an identifier. *)
Definition queried_retry_count (notification_id : string) (w : World)
  : option Z :=
  match reply_of (Source.get_notification notification_id w) with
  | Some rep => option_map d_retry_count (data_of rep)
  | None => None
  end.

(** A reply is a not-found rejection when it reports failure under one of
    the handlers' not-found labels. *)
Definition is_not_found {D} (rep : Reply D) : bool :=
  match body rep with
  | Failure error _ =>
      (error =? "User Not Found")%string
      || (error =? "Template Not Found")%string
      || (error =? "Not Found")%string
  | _ => false
  end.

(** The priority an accepted request is processed with. *)
Definition accepted_priority (req : Request) : Z :=
  match priority req with Some p => p | None => 5 end.

(** The instant the handler estimates for an accepted request. *)
Definition estimate_instant (req : Request) (w : World) : Z :=
  clock w + Z.max 1 (11 - accepted_priority req) * 5 * 60 * 1000.

(** The clock is a time value that leaves room for the longest estimate of
    a valid priority, 50 minutes, before the end of the range of dates. *)
Definition clock_has_room (w : World) : Prop :=
  - max_time <= clock w /\ clock w + minutes 50 <= max_time.

(** The record the handler creates for an accepted request. *)
Definition record_of (id : string) (req : Request) : NotificationRecord :=
  mkNotificationRecord id (request_id req) (user_id req)
    (notification_type req) (template_code req) (variables req)
    (accepted_priority req) (metadata req) "pending".

(** The message the handler enqueues for an accepted request. *)
Definition message_of (id : string) (req : Request) : QueueMessage :=
  mkQueueMessage id (notification_type req) (user_id req)
    (template_code req) (variables req) (accepted_priority req)
    (metadata req).

(** A reply that rejects the request. *)
Definition rejected {D} (rep : Reply D) : bool :=
  match body rep with
  | Failure _ _ => true
  | _ => false
  end.

(** Does the handler skip this notification for this user? *)
Definition opted_out (notification_type : string) (u : User) : bool :=
  ((notification_type =? "email")%string && negb (pref_email (preferences u)))
  || ((notification_type =? "push")%string && negb (pref_push (preferences u))).

End Gateway.

(** ** The status state machine *)

Module StatusMachine.

(** Modelled from the spec: the statuses of section 4.3; the source has no
    Status Manager and carries statuses as plain strings. *)
Inductive Status : Type :=
| pending | queued | processing | sent | delivered
| failed | dead_lettered | skipped.

(** Modelled from the spec: the events of the transition table of
    section 4.3, which the source does not declare. *)
Inductive Event : Type :=
| enqueued | worker_picked_up | channel_accepted | provider_confirmed
| channel_rejected | retry_scheduled | retries_exhausted
| preference_opt_out.

(** Modelled from the spec: the transition table of section 4.3, row by
    row; the source has no such table.  [None] is [InvalidTransition]. *)
Definition transition (from : Status) (e : Event) : option Status :=
  match from, e with
  | pending, enqueued => Some queued
  | queued, worker_picked_up => Some processing
  | processing, channel_accepted => Some sent
  | sent, provider_confirmed => Some delivered
  | processing, channel_rejected => Some failed
  | failed, retry_scheduled => Some queued
  | failed, retries_exhausted => Some dead_lettered
  | pending, preference_opt_out => Some skipped
  | _, _ => None
  end.

(** Modelled from the spec: all the events of the table of section 4.3. *)
Definition events : list Event :=
  [enqueued; worker_picked_up; channel_accepted; provider_confirmed;
   channel_rejected; retry_scheduled; retries_exhausted; preference_opt_out].

Definition Status_eqb (a b : Status) : bool :=
  match a, b with
  | pending, pending | queued, queued | processing, processing
  | sent, sent | delivered, delivered | failed, failed
  | dead_lettered, dead_lettered | skipped, skipped => true
  | _, _ => false
  end.

(** Modelled from the spec: is the move [from -> to] a row of the table of
    section 4.3, under some event? *)
Definition in_table (from to : Status) : bool :=
  existsb (fun e => match transition from e with
                    | Some t => Status_eqb t to
                    | None => false
                    end) events.

(** Modelled from the spec: a status is terminal when no row of the table
    leaves it (section 4.3 names [delivered], [dead_lettered] and
    [skipped]). *)
Definition terminal (s : Status) : bool :=
  forallb (fun e => match transition s e with
                    | Some _ => false
                    | None => true
                    end) events.

(** Modelled from the spec: the statuses reachable via the transition table
    (section 8), starting from [pending], the status of a new
    notification. *)
Inductive reachable : Status -> Prop :=
| reachable_initial : reachable pending
| reachable_step (s t : Status) (e : Event) :
    reachable s -> transition s e = Some t -> reachable t.

(** Modelled from the spec: the names of the statuses as section 4.3 writes
    them, which is how the gateway carries them. *)
Definition of_string (s : string) : option Status :=
  if (s =? "pending")%string then Some pending
  else if (s =? "queued")%string then Some queued
  else if (s =? "processing")%string then Some processing
  else if (s =? "sent")%string then Some sent
  else if (s =? "delivered")%string then Some delivered
  else if (s =? "failed")%string then Some failed
  else if (s =? "dead_lettered")%string then Some dead_lettered
  else if (s =? "skipped")%string then Some skipped
  else None.

(** Modelled from the spec: is the move between two named statuses a row of
    the table of section 4.3? *)
Definition legal (from to : string) : bool :=
  match of_string from, of_string to with
  | Some a, Some b => in_table a b
  | _, _ => false
  end.

End StatusMachine.

(** ** The retry manager *)

Module RetryManager.
Import StatusMachine.

Local Open Scope Q_scope.

(** Modelled from the spec: the retry configuration of section 4.4 (base
    delay, maximum delay, maximum number of retries); the source has no
    Retry Manager. *)
Record Config : Type := mkConfig {
  base_delay : Q;
  max_delay : Q;
  max_retries : nat
}.

(** Modelled from the spec: the decision of [onFailure] (section 4.4),
    absent from the source. *)
Inductive Action : Type :=
| retry (delay : Q)
| dead_letter.

(** Modelled from the spec: "delay = base * 2^retry_count, capped at a
    configured maximum" (section 4.4); absent from the source. *)
Definition backoff (cfg : Config) (retry_count : nat) : Q :=
  Qmin (max_delay cfg)
       (base_delay cfg * inject_Z (2 ^ Z.of_nat retry_count)).

(** Modelled from the spec: "with jitter (+-20%)" (section 4.4); the
    jitter is the relative deviation drawn for this retry.  Absent from the
    source. *)
Definition jitter_ok (jitter : Q) : Prop := - (1 # 5) <= jitter <= 1 # 5.

(** Modelled from the spec: the delay with its jitter applied (section
    4.4). *)
Definition with_jitter (delay jitter : Q) : Q := delay * (1 + jitter).

(** Modelled from the spec: the other reading of "capped at a configured
    maximum, with jitter" (section 4.4), in which the jitter is applied to
    [base * 2^retry_count] first and the result is capped.  Absent from the
    source. *)
Definition jitter_then_cap (cfg : Config) (jitter : Q) (retry_count : nat)
  : Q :=
  Qmin (max_delay cfg)
       (with_jitter (base_delay cfg * inject_Z (2 ^ Z.of_nat retry_count))
                    jitter).

(** Modelled from the spec: [onFailure] of section 4.4, "dead-letters
    when retry_count >= max_retries", otherwise retries after the jittered
    backoff; absent from the source. *)
Definition onFailure (cfg : Config) (jitter : Q) (retry_count : nat)
  : Action :=
  if (max_retries cfg <=? retry_count)%nat then dead_letter
  else retry (with_jitter (backoff cfg retry_count) jitter).

(** Modelled from the spec: the notification types of section 3 and the
    logical queues of section 4.2; the source has no Queue Router. *)
Inductive Channel : Type := email | push.

(** Modelled from the spec: the logical queues [email.queue],
    [push.queue] and [failed.queue] of section 4.2. *)
Inductive Queue : Type := email_queue | push_queue | failed_queue.

(** Modelled from the spec: [route] of section 4.2 for a notification that
    is not exhausted; absent from the source. *)
Definition route (c : Channel) : Queue :=
  match c with
  | email => email_queue
  | push => push_queue
  end.

(** Modelled from the spec: the part of a Notification (section 3) the
    retry path reads and writes, with every enqueue performed for it so
    far (queue and delay, oldest first); absent from the source. *)
Record Notification : Type := mkNotification {
  channel : Channel;
  status : Status;
  retry_count : nat;
  enqueues : list (Queue * Q)
}.

(** Modelled from the spec: a notification as intake inserts it, with
    status [pending] and no retry (sections 2 and 3). *)
Definition intake (c : Channel) : Notification :=
  mkNotification c pending 0 [].

(** Modelled from the spec: what happens to a notification (section 2,
    control flow); a failure report carries the jitter drawn for it. *)
Inductive Input : Type :=
| Enqueue
| PickUp
| SendAccepted
| SendFailed (jitter : Q)
| ProviderConfirmed
| OptOut.

(** Modelled from the spec: the Status Manager applies an event through the
    transition table (section 4.3); [None] is [InvalidTransition]. *)
Definition apply_event (n : Notification) (e : Event) : option Notification :=
  match transition (status n) e with
  | Some s => Some (mkNotification (channel n) s (retry_count n) (enqueues n))
  | None => None
  end.

(** Modelled from the spec: an enqueue onto a queue with a delay (sections
    4.2 and 9, "a scheduled re-enqueue with a computed delay"). *)
Definition enqueue (q : Queue) (delay : Q) (n : Notification) : Notification :=
  mkNotification (channel n) (status n) (retry_count n)
                 (enqueues n ++ [(q, delay)]).

(** Modelled from the spec: "every retry increments retry_count before
    re-enqueue" (section 4.4). *)
Definition increment (n : Notification) : Notification :=
  mkNotification (channel n) (status n) (S (retry_count n)) (enqueues n).

(** Modelled from the spec: one step of the delivery pipeline (sections 2,
    4.2, 4.3 and 4.4).  A failed send moves the notification to [failed]
    and asks [onFailure]: a retry increments [retry_count], moves the
    notification back to [queued] and enqueues it with the delay; a
    dead-letter moves it to [dead_lettered] and puts it on the failed
    queue.  Absent from the source. *)
Definition step (cfg : Config) (n : Notification) (i : Input)
  : option Notification :=
  match i with
  | Enqueue =>
      option_map (enqueue (route (channel n)) 0) (apply_event n enqueued)
  | PickUp => apply_event n worker_picked_up
  | SendAccepted => apply_event n channel_accepted
  | ProviderConfirmed => apply_event n provider_confirmed
  | OptOut => apply_event n preference_opt_out
  | SendFailed jitter =>
      match apply_event n channel_rejected with
      | None => None
      | Some n1 =>
          match onFailure cfg jitter (retry_count n1) with
          | retry delay =>
              option_map (enqueue (route (channel n1)) delay)
                         (apply_event (increment n1) retry_scheduled)
          | dead_letter =>
              option_map (enqueue failed_queue 0)
                         (apply_event n1 retries_exhausted)
          end
      end
  end.

(** Modelled from the spec: illegal transitions "are rejected and do not
    alter stored status" (section 8). *)
Definition step_or_keep (cfg : Config) (n : Notification) (i : Input)
  : Notification :=
  match step cfg n i with
  | Some n' => n'
  | None => n
  end.

(** Modelled from the spec: a notification's life under a sequence of
    inputs (section 8, "for all sequences of events"). *)
Definition run (cfg : Config) (n : Notification) (inputs : list Input)
  : Notification :=
  fold_left (step_or_keep cfg) inputs n.

(** Modelled from the spec: a delay lies "within jitter bounds" of a
    nominal value (section 8), that is within 20% of it. *)
Definition within_jitter (nominal d : Q) : Prop :=
  (4 # 5) * nominal <= d <= (6 # 5) * nominal.

(** Modelled from the spec: the delay [onFailure] schedules for a failure
    at a given retry count, if it retries. *)
Definition scheduled_delay (cfg : Config) (jitter : Q) (retry_count : nat)
  : option Q :=
  match onFailure cfg jitter retry_count with
  | retry d => Some d
  | dead_letter => None
  end.

End RetryManager.

(** ** The circuit breaker *)

Module CircuitBreaker.

(** Modelled from the spec: the breaker modes of section 4.5; the source
    has no circuit breaker. *)
Inductive Mode : Type := Closed | Open | HalfOpen.

(** Modelled from the spec: the configured threshold, window and cooldown
    of section 4.5 (times in milliseconds); absent from the source. *)
Record Config : Type := mkConfig {
  threshold : nat;
  window : Z;
  cooldown : Z
}.

(** Modelled from the spec: the Circuit Breaker State of section 3: the
    mode, the consecutive failures (their times, newest first; the counter
    is the number of them inside the window), the time of the last
    transition, and whether the half-open probe is under way.  Absent from
    the source. *)
Record Breaker : Type := mkBreaker {
  mode : Mode;
  failures : list Z;
  last_transition : Z;
  probing : bool
}.


(** Modelled from the spec: a request either passes or fails immediately
    with [CircuitOpen] (section 4.5). *)
Inductive Decision : Type := Pass | CircuitOpen.

(** Modelled from the spec: the failures that still lie inside the sliding
    window (section 4.5). *)
Definition recent (cfg : Config) (now : Z) (fs : list Z) : list Z :=
  filter (fun t => now - t <? window cfg) fs.

(** Modelled from the spec: the check before a call (section 4.5).
    Closed lets the call pass; open fails fast until the cooldown has
    elapsed, then becomes half-open and lets one probe pass; half-open
    lets nothing else pass while the probe is under way.  Absent from the
    source. *)
Definition before_call (cfg : Config) (now : Z) (b : Breaker)
  : Decision * Breaker :=
  match mode b with
  | Closed => (Pass, b)
  | Open =>
      if cooldown cfg <=? now - last_transition b
      then (Pass, mkBreaker HalfOpen (failures b) now true)
      else (CircuitOpen, b)
  | HalfOpen =>
      if probing b then (CircuitOpen, b)
      else (Pass, mkBreaker HalfOpen (failures b) (last_transition b) true)
  end.

(** Modelled from the spec: recording the outcome of a call that passed
    (section 4.5).  Closed: a success clears the consecutive failures, a
    failure is counted and opens the breaker when the count inside the
    window reaches the threshold.  Half-open: the first probe success
    closes the breaker, any probe failure opens it.  Absent from the
    source. *)
Definition report (cfg : Config) (now : Z) (ok : bool) (b : Breaker)
  : Breaker :=
  match mode b with
  | Closed =>
      if ok then mkBreaker Closed [] (last_transition b) false
      else
        let fs := now :: recent cfg now (failures b) in
        if (threshold cfg <=? List.length fs)%nat
        then mkBreaker Open fs now false
        else mkBreaker Closed fs (last_transition b) false
  | HalfOpen =>
      if ok then mkBreaker Closed [] now false
      else mkBreaker Open (failures b) now false
  | Open => b
  end.

(** Modelled from the spec: the manual override of section 4.5. *)
Definition force_closed (now : Z) (b : Breaker) : Breaker :=
  mkBreaker Closed [] now false.

(** Modelled from the spec: the channel's [send] capability (section 6):
    the number of times it has been invoked, and whether the k-th
    invocation is accepted. *)
Record Channel : Type := mkChannel {
  invocations : nat;
  accepts : nat -> bool
}.

(** Modelled from the spec: one invocation of [send] (section 6). *)
Definition send (ch : Channel) : bool * Channel :=
  (accepts ch (invocations ch), mkChannel (S (invocations ch)) (accepts ch)).

(** Modelled from the spec: what a breaker-gated send returns: accepted,
    [DeliveryError] or [CircuitOpen] (sections 6 and 7). *)
Inductive CallResult : Type :=
| Accepted
| DeliveryError
| CircuitOpenError.

(** Modelled from the spec: "the breaker wraps exactly the external send
    call" (section 4.5); absent from the source. *)
Definition call (cfg : Config) (now : Z) (s : Breaker * Channel)
  : CallResult * (Breaker * Channel) :=
  let (b, ch) := s in
  match before_call cfg now b with
  | (CircuitOpen, b') => (CircuitOpenError, (b', ch))
  | (Pass, b') =>
      let (ok, ch') := send ch in
      (if ok then Accepted else DeliveryError, (report cfg now ok b', ch'))
  end.


(** Modelled from the spec: one breaker-gated call at each of the given
    times, in order. *)
Definition calls (cfg : Config) (times : list Z) (s : Breaker * Channel)
  : Breaker * Channel :=
  fold_left (fun s now => snd (call cfg now s)) times s.

End CircuitBreaker.

(** ** Concrete requests and worlds *)

Module Scenario.
Import Js Gateway.

(** A random source that never repeats within its first draws. *)
Definition uuids (n : nat) : string :=
  match n with
  | O => "0b6f3c1e-0000-4000-8000-000000000000"
  | S O => "0b6f3c1e-0000-4000-8000-000000000001"
  | S (S O) => "0b6f3c1e-0000-4000-8000-000000000002"
  | _ => "0b6f3c1e-0000-4000-8000-00000000ffff"
  end.

Definition world0 : World := mkWorld [] [] 1700000000000 uuids 0.

(** The request of the specification's first concrete scenario. *)
Definition r1 : Request :=
  mkRequest "email" "U1" "welcome" [] "r-1" (Some 5) None.

Definition r1_push : Request :=
  mkRequest "push" "U1" "welcome" [] "r-1" (Some 5) None.

Definition urgent : Request :=
  mkRequest "email" "U1" "welcome" [] "r-9" (Some 9) None.

(** A user service that knows [U1], who opted out of email. *)
Definition users (user_id : string) : option User :=
  if (user_id =? "U1")%string
  then Some (mkUser "U1" "Ada" "ada@example.com" (mkPreferences false true))
  else None.

(** A template service that knows only [welcome]. *)
Definition templates (template_code : string) : option Template :=
  if (template_code =? "welcome")%string
  then Some (mkTemplate "welcome" "Welcome" "Hello {{name}}")
  else None.

Definition unknown_user : Request :=
  mkRequest "email" "U2" "welcome" [] "r-3" None None.

Definition unknown_template : Request :=
  mkRequest "push" "U1" "goodbye" [] "r-4" None None.

(** A worker's callback claiming delivery. *)
Definition claims_delivered : StatusBody :=
  mkStatusBody "delivered" None None.

(** The retry configuration of the specification's second scenario: base
    delay 1 s, at most 3 retries; delays are capped at one minute. *)
Definition retry_cfg : RetryManager.Config :=
  RetryManager.mkConfig 1000 60000 3.

(** A base delay equal to the cap. *)
Definition tight_cfg : RetryManager.Config :=
  RetryManager.mkConfig 1000 1500 3.

(** A notification whose every send fails, with no jitter. *)
Definition always_failing : list RetryManager.Input :=
  [RetryManager.Enqueue;
   RetryManager.PickUp; RetryManager.SendFailed 0;
   RetryManager.PickUp; RetryManager.SendFailed 0;
   RetryManager.PickUp; RetryManager.SendFailed 0;
   RetryManager.PickUp; RetryManager.SendFailed 0].



End Scenario.

(** ** Pagination of the list routes *)

Module Pagination.

(** The value of [Math.ceil(total / limit)] for integer operands: a finite
    integer, an infinity when a non-zero total is divided by zero, or [NaN]
    for [0 / 0].  The operands are taken to be integers small enough (below
    2^53) for the rounding of the quotient not to reach the next integer;
    a zero result stands for both [0] and [-0], which compare alike. *)
Inductive Number : Type :=
| Finite (z : Z)
| PosInfinity
| NegInfinity
| NaN.

(** [Math.ceil(total / limit)] *)
Definition ceil_ratio (total limit : Z) : Number :=
  if limit =? 0 then
    if total =? 0 then NaN
    else if 0 <? total then PosInfinity else NegInfinity
  else Finite (- ((- total) / limit)).

(** [page < n] *)
Definition less_than (page : Z) (n : Number) : bool :=
  match n with
  | Finite z => page <? z
  | PosInfinity => true
  | NegInfinity => false
  | NaN => false
  end.

(** The [meta] object of a list reply. *)
Record Meta : Type := mkMeta {
  m_total : Z;
  m_limit : Z;
  m_page : Z;
  total_pages : Number;
  has_next : bool;
  has_previous : bool
}.

(** The [meta] object both list handlers build. *)
Definition meta (total limit page : Z) : Meta :=
  mkMeta total limit page
         (ceil_ratio total limit)
         (less_than page (ceil_ratio total limit))
         (1 <? page).

End Pagination.

(** ** The list route of the API gateway *)

Module GatewayList.
Import Js Gateway.

(** The query string of [GET /api/v1/notifications]; [page] and [limit]
    default to 1 and 20 when the handler destructures it. *)
Record ListQuery : Type := mkListQuery {
  lq_user_id : option string;
  lq_notification_type : option string;
  lq_status : option string;
  lq_page : option Z;
  lq_limit : option Z;
  lq_start_date : option string;
  lq_end_date : option string
}.

(** The argument of [listNotifications]. *)
Record Filters : Type := mkFilters {
  f_user_id : option string;
  f_notification_type : option string;
  f_status : option string;
  f_page : Z;
  f_limit : Z;
  f_start_date : option string;
  f_end_date : option string
}.

(** What [listNotifications] returns. *)
Record ListResult : Type := mkListResult {
  notifications : list StoredNotification;
  total : Z
}.

(** The [data] and [meta] of a list reply. *)
Record ListData : Type := mkListData {
  items : list StoredNotification;
  list_meta : Pagination.Meta
}.

(** The helper function, as the source has it. *)
Definition listNotifications (filters : Filters) : ListResult :=
  mkListResult [] 0.

Section listRoute.

Local Open Scope async_scope.

Variable listNotifications : Filters -> ListResult.

(** [GET /api/v1/notifications] *)
Definition get_notifications (q : ListQuery) : Async (Reply ListData) :=
  let page := match lq_page q with Some p => p | None => 1 end in
  let limit := match lq_limit q with Some l => l | None => 20 end in
  try_catch
    (result <- ret (listNotifications
                      (mkFilters (lq_user_id q) (lq_notification_type q)
                         (lq_status q) page limit (lq_start_date q)
                         (lq_end_date q))) ;;
     ret (mkReply 200
            (Success (mkListData (notifications result)
                        (Pagination.meta (total result) limit page))
                     "Notifications retrieved successfully")))
    (fun _ =>
       log_error "Error listing notifications:" ;;;
       ret (mkReply 500
              (Failure "Internal Server Error"
                       "Failed to retrieve notifications"))).

End listRoute.

(** The [meta] object a list call answered with. *)
Definition returned_meta (r : Outcome (Reply ListData) * World)
  : option Pagination.Meta :=
  match reply_of r with
  | Some rep => option_map list_meta (data_of rep)
  | None => None
  end.

End GatewayList.

(** ** The gateway as a service: sequences of calls *)

Module GatewayService.
Import Js Gateway.

(** One request to the notification routes, or time passing between two
    requests. *)
Inductive Call : Type :=
| Intake (req : Request)
| StatusQuery (notification_id : string)
| StatusCallback (notification_id : string) (update : StatusBody)
| Listing (q : GatewayList.ListQuery)
| Wait (ms : Z).

Section Serving.

Variable checkExistingNotification : string -> option Existing.
Variable getUserById : string -> option User.
Variable getTemplateByCode : string -> option Template.
Variable listNotifications : GatewayList.Filters -> GatewayList.ListResult.

(** The request passes every check of the intake handler: it is not
    known already, its user is known and has not opted out, and its
    template is known. *)
Definition passes_checks (req : Request) : Prop :=
  checkExistingNotification (request_id req) = None
  /\ exists u t,
       getUserById (user_id req) = Some u
       /\ opted_out (notification_type req) u = false
       /\ getTemplateByCode (template_code req) = Some t.

(** The status code a call is answered with, if it is answered. *)
Definition answer_code (c : Call) (w : World) : option Z :=
  match c with
  | Intake req =>
      option_map code
        (reply_of (post_notification checkExistingNotification getUserById
                     getTemplateByCode req w))
  | StatusQuery id => option_map code (reply_of (get_notification id w))
  | StatusCallback id update =>
      option_map code (reply_of (post_notification_status id update w))
  | Listing q =>
      option_map code
        (reply_of (GatewayList.get_notifications listNotifications q w))
  | Wait _ => Some 200
  end.

(** The world a call leaves behind. *)
Definition perform (w : World) (c : Call) : World :=
  match c with
  | Intake req =>
      snd (post_notification checkExistingNotification getUserById
             getTemplateByCode req w)
  | StatusQuery id => snd (get_notification id w)
  | StatusCallback id update => snd (post_notification_status id update w)
  | Listing q => snd (GatewayList.get_notifications listNotifications q w)
  | Wait ms => elapse ms w
  end.

Definition serve (w : World) (calls : list Call) : World :=
  fold_left perform calls w.

End Serving.

(** The message that belongs to a created record. *)
Definition message_for (n : NotificationRecord) : QueueMessage :=
  mkQueueMessage (n_notification_id n) (n_notification_type n) (n_user_id n)
    (n_template_code n) (n_variables n) (n_priority n) (n_metadata n).

(** Every created record has been enqueued, in the same order and with the
    same payload, and nothing else has been enqueued. *)
Definition in_step (w : World) : Prop :=
  enqueued (console w) = map message_for (created (console w)).

(** Every created record carries an identifier drawn earlier from the random
    source, and no two records share one. *)
Definition ids_drawn (w : World) : Prop :=
  Forall (fun n => exists i, (i < drawn w)%nat
                             /\ n_notification_id n = entropy w i)
         (created (console w)).

(** The random source never produces the same identifier twice. *)
Definition collision_free (w : World) : Prop :=
  forall i j, entropy w i = entropy w j -> i = j.

End GatewayService.

(** ** The routes of the user service *)

Module UserService.
Import Js.

(** A value read from [request.params] or handed on: a string, or
    [undefined]. *)
Definition show (s : option string) : string :=
  match s with
  | Some v => v
  | None => "undefined"
  end.

(** What the lookups return of a stored user. *)
Record StoredUser : Type := mkStoredUser {
  su_user_id : option string;
  su_name : string;
  su_email : string;
  su_preferences : Gateway.Preferences;
  su_password : string
}.

(** The body of [POST /users]. *)
Record CreateBody : Type := mkCreateBody {
  cb_name : string;
  cb_email : string;
  cb_push_token : option string;
  cb_preferences : Gateway.Preferences;
  cb_password : string
}.

(** The argument of [createUser]. *)
Record NewUser : Type := mkNewUser {
  nu_user_id : string;
  nu_name : string;
  nu_email : string;
  nu_push_token : option string;
  nu_preferences : Gateway.Preferences;
  nu_password : string
}.

(** The body of [PUT /users/:user_id]; every field is optional. *)
Record UpdateBody : Type := mkUpdateBody {
  ub_name : option string;
  ub_email : option string;
  ub_push_token : option string;
  ub_preferences : option Gateway.Preferences
}.

(** The second argument of [updateUser]: the fields it is given. *)
Record Updates : Type := mkUpdates {
  up_name : option string;
  up_email : option string;
  up_push_token : option string;
  up_preferences : option Gateway.Preferences;
  up_password : option string
}.


(** The body of [POST /users/change-password]. *)
Record PasswordBody : Type := mkPasswordBody {
  pb_current_password : string;
  pb_new_password : string
}.

(** The query string of [GET /users]. *)
Record UserQuery : Type := mkUserQuery {
  uq_page : option Z;
  uq_limit : option Z;
  uq_search : option string;
  uq_email_enabled : option bool;
  uq_push_enabled : option bool;
  uq_created_after : option string;
  uq_created_before : option string
}.

(** The argument of [listUsers]. *)
Record UserFilters : Type := mkUserFilters {
  uf_page : Z;
  uf_limit : Z;
  uf_search : option string;
  uf_email_enabled : option bool;
  uf_push_enabled : option bool;
  uf_created_after : option string;
  uf_created_before : option string
}.

(** What [listUsers] returns. *)
Record UserList : Type := mkUserList {
  users : list StoredUser;
  users_total : Z
}.

(** The lines the helper functions print with [console.log]. *)
Inductive Line : Type :=
| CreatingUser (u : NewUser)
| UpdatingUser (user_id : option string) (u : Updates).

Definition World : Type := Js.World Line.
Definition Async (A : Type) : Type := Js.Async Line A.

(** The [data] objects of the replies. *)
Record CreatedData : Type := mkCreatedData {
  cd_user_id : string;
  cd_name : string;
  cd_email : string;
  cd_preferences : Gateway.Preferences;
  cd_created_at : IsoString
}.

Record UpdatedData : Type := mkUpdatedData {
  ud_user_id : string;
  ud_name : option string;
  ud_email : option string;
  ud_push_token : option string;
  ud_preferences : option Gateway.Preferences;
  ud_updated_at : IsoString
}.


Record UserListData : Type := mkUserListData {
  ul_items : list StoredUser;
  ul_meta : Pagination.Meta
}.


(** *** Helper functions, as the source has them *)

Module Helpers.

Definition getUserByEmail (email : string) : option StoredUser := None.

Definition getUserById (user_id : option string) : option StoredUser :=
  Some (mkStoredUser user_id "Test User" "test@example.com"
          (Gateway.mkPreferences true true)
          "$2a$10$12$5$6$7$8$9$4$3$2$7").

Definition createUser (user : NewUser) : Async unit :=
  console_log (CreatingUser user).

Definition updateUser (user_id : option string) (updates : Updates)
  : Async unit :=
  console_log (UpdatingUser user_id updates).

Definition listUsers (filters : UserFilters) : UserList := mkUserList [] 0.

End Helpers.

(** *** The route handlers

    The read-only lookups are parameters of the handlers, as are the three
    library functions the handlers call: bcrypt's hash of a password under a
    salt and a number of rounds, bcrypt's comparison of a password with a
    hash, and the base64 encoding of a string. *)

Section userRoutes.

Local Open Scope async_scope.

Variable getUserByEmail : string -> option StoredUser.
Variable getUserById : option string -> option StoredUser.
Variable listUsers : UserFilters -> UserList.
Variable bcrypt_hash_with : string -> string -> Z -> string.
Variable bcrypt_compare : string -> string -> bool.
Variable base64 : string -> string.

(** [bcrypt.hash(data, rounds)]: draws a salt from the random source. *)
Definition bcrypt_hash (data : string) (rounds : Z) : Async string :=
  salt <- uuidv4 ;;
  ret (bcrypt_hash_with salt data rounds).

(** [POST /users] *)
Definition create_user (body : CreateBody)
  : Async (Gateway.Reply CreatedData) :=
  try_catch
    (existingUser <- ret (getUserByEmail (cb_email body)) ;;
     match existingUser with
     | Some _ =>
         ret (Gateway.mkReply 409
                (Gateway.Failure "Conflict"
                                 "User with this email already exists"))
     | None =>
         hashedPassword <- bcrypt_hash (cb_password body) 10 ;;
         user_id <- uuidv4 ;;
         Helpers.createUser
           (mkNewUser user_id (cb_name body) (cb_email body)
              (cb_push_token body) (cb_preferences body) hashedPassword) ;;;
         created_at <- new_Date_toISOString ;;
         ret (Gateway.mkReply 200
                (Gateway.Success
                   (mkCreatedData user_id (cb_name body) (cb_email body)
                      (cb_preferences body) created_at)
                   "User created successfully"))
     end)
    (fun _ =>
       log_error "Error creating user:" ;;;
       ret (Gateway.mkReply 500
              (Gateway.Failure "Internal Server Error"
                               "Failed to create user"))).

(** [GET /users/:user_id] *)
Definition get_user (user_id : string) : Async (Gateway.Reply StoredUser) :=
  try_catch
    (user <- ret (getUserById (Some user_id)) ;;
     match user with
     | None =>
         ret (Gateway.mkReply 404
                (Gateway.Failure "Not Found"
                   ("User with ID " ++ user_id ++ " not found")))
     | Some user =>
         ret (Gateway.mkReply 200
                (Gateway.Success user "User retrieved successfully"))
     end)
    (fun _ =>
       log_error "Error getting user:" ;;;
       ret (Gateway.mkReply 500
              (Gateway.Failure "Internal Server Error"
                               "Failed to retrieve user"))).

(** [PUT /users/:user_id] *)
Definition update_user (user_id : string) (body : UpdateBody)
  : Async (Gateway.Reply UpdatedData) :=
  try_catch
    (existingUser <- ret (getUserById (Some user_id)) ;;
     match existingUser with
     | None =>
         ret (Gateway.mkReply 404
                (Gateway.Failure "Not Found"
                   ("User with ID " ++ user_id ++ " not found")))
     | Some _ =>
         Helpers.updateUser (Some user_id)
           (mkUpdates (ub_name body) (ub_email body) (ub_push_token body)
              (ub_preferences body) None) ;;;
         updated_at <- new_Date_toISOString ;;
         ret (Gateway.mkReply 200
                (Gateway.Success
                   (mkUpdatedData user_id (ub_name body) (ub_email body)
                      (ub_push_token body) (ub_preferences body) updated_at)
                   "User updated successfully"))
     end)
    (fun _ =>
       log_error "Error updating user:" ;;;
       ret (Gateway.mkReply 500
              (Gateway.Failure "Internal Server Error"
                               "Failed to update user"))).


(** [POST /users/change-password]; [user_id] is what the handler reads from
    [request.params], which is [undefined] for this route, whose path has no
    parameter. *)
Definition change_password (user_id : option string) (body : PasswordBody)
  : Async (Gateway.Reply unit) :=
  try_catch
    (user <- ret (getUserById user_id) ;;
     match user with
     | None =>
         ret (Gateway.mkReply 404
                (Gateway.Failure "Not Found"
                   ("User with ID " ++ show user_id ++ " not found")))
     | Some user =>
         isCurrentPasswordValid <-
           ret (bcrypt_compare (pb_current_password body)
                               (su_password user)) ;;
         if negb isCurrentPasswordValid then
           ret (Gateway.mkReply 400
                  (Gateway.Failure "Invalid Current Password"
                                   "Current password is incorrect"))
         else
           hashedNewPassword <- bcrypt_hash (pb_new_password body) 10 ;;
           Helpers.updateUser user_id
             (mkUpdates None None None None (Some hashedNewPassword)) ;;;
           ret (Gateway.mkReply 200
                  (Gateway.Acknowledged "Password changed successfully"))
     end)
    (fun _ =>
       log_error "Error changing password:" ;;;
       ret (Gateway.mkReply 500
              (Gateway.Failure "Internal Server Error"
                               "Failed to change password"))).

(** [GET /users] *)
Definition list_users (q : UserQuery) : Async (Gateway.Reply UserListData) :=
  let page := match uq_page q with Some p => p | None => 1 end in
  let limit := match uq_limit q with Some l => l | None => 20 end in
  try_catch
    (result <- ret (listUsers
                      (mkUserFilters page limit (uq_search q)
                         (uq_email_enabled q) (uq_push_enabled q)
                         (uq_created_after q) (uq_created_before q))) ;;
     ret (Gateway.mkReply 200
            (Gateway.Success
               (mkUserListData (users result)
                  (Pagination.meta (users_total result) limit page))
               "Users retrieved successfully")))
    (fun _ =>
       log_error "Error listing users:" ;;;
       ret (Gateway.mkReply 500
              (Gateway.Failure "Internal Server Error"
                               "Failed to retrieve users"))).

End userRoutes.

(** The users handed to [createUser] so far. *)
Fixpoint created_users (ls : list Line) : list NewUser :=
  match ls with
  | [] => []
  | CreatingUser u :: ls' => u :: created_users ls'
  | _ :: ls' => created_users ls'
  end.


(** *** The error handler of the server *)

(** What the error handler reads of an error: the validation details when
    the error is a validation error, the error code, the status code, the
    name and the message; each may be missing. *)
Record FastifyError : Type := mkFastifyError {
  fe_validation : option (list string);
  fe_code : option string;
  fe_statusCode : option Z;
  fe_name : option string;
  fe_message : option string
}.

(** What the error handler sends: the status given to [reply.status] and
    the object given to [send]. *)
Record ErrorReply : Type := mkErrorReply {
  er_status : Z;
  er_success : bool;
  er_error : string;
  er_message : string;
  er_details : option (list string)
}.

(** [n || fallback] for a number that may be missing: zero is falsy. *)
Definition number_or (n : option Z) (fallback : Z) : Z :=
  match n with
  | Some z => if z =? 0 then fallback else z
  | None => fallback
  end.

(** [s || fallback] for a string that may be missing: the empty string is
    falsy. *)
Definition string_or (s : option string) (fallback : string) : string :=
  match s with
  | Some v => if (v =? "")%string then fallback else v
  | None => fallback
  end.

Definition code_is (e : FastifyError) (c : string) : bool :=
  match fe_code e with
  | Some v => (v =? c)%string
  | None => false
  end.

(** [reply.status(n)] takes the status codes from 100 to 599 and throws
    [FST_ERR_BAD_STATUS_CODE] for any other integer. *)
Definition status_accepted (n : Z) : bool := (100 <=? n) && (n <=? 599).

(** How a call of the error handler ends: it sends a reply, or
    [reply.status] throws on the status it is given and nothing is sent by
    the handler. *)
Inductive Handled : Type :=
| Sent (r : ErrorReply)
| BadStatusCode (status : Z).

(** [reply.status(n).send(body)] *)
Definition status_send (n : Z) (success : bool) (error message : string)
           (details : option (list string)) : Handled :=
  if status_accepted n then Sent (mkErrorReply n success error message details)
  else BadStatusCode n.

(** The function given to [server.setErrorHandler]. *)
Definition errorHandler (error : FastifyError) : Handled :=
  match fe_validation error with
  | Some details =>
      status_send 400 false "Validation Error" "Invalid request data"
                  (Some details)
  | None =>
      if code_is error "FST_JWT_NO_AUTHORIZATION_IN_HEADER" then
        status_send 401 false "Unauthorized" "Missing authorization header"
                    None
      else if code_is error "FST_JWT_AUTHORIZATION_TOKEN_EXPIRED" then
        status_send 401 false "Unauthorized" "Token expired" None
      else if match fe_statusCode error with
              | Some z => z =? 429
              | None => false
              end then
        status_send 429 false "Too Many Requests" "Rate limit exceeded" None
      else
        status_send (number_or (fe_statusCode error) 500) false
                    (string_or (fe_name error) "Internal Server Error")
                    (string_or (fe_message error) "Something went wrong")
                    None
  end.

(** The status of the reply the handler sent, if it sent one. *)
Definition sent_status (h : Handled) : option Z :=
  match h with
  | Sent r => Some (er_status r)
  | BadStatusCode _ => None
  end.

End UserService.

(** ** Concrete traffic *)

Module Traffic.
Import Js.

(** A random source that never repeats: the n-th identifier is n strokes
    long. *)
Fixpoint tally (n : nat) : string :=
  match n with
  | O => EmptyString
  | S k => ("i" ++ tally k)%string
  end.

Definition gateway_world : Gateway.World :=
  mkWorld [] [] 1700000000000 tally 0.

(** A morning at the gateway. *)
Definition morning : list GatewayService.Call :=
  [GatewayService.Intake Scenario.r1_push;
   GatewayService.StatusQuery "n-1";
   GatewayService.Intake Scenario.r1;
   GatewayService.Wait 1500;
   GatewayService.StatusCallback "n-1" Scenario.claims_delivered;
   GatewayService.Intake Scenario.unknown_user;
   GatewayService.Intake Scenario.r1_push;
   GatewayService.Listing
     (GatewayList.mkListQuery None None None (Some 2) None None None)].

(** A ledger lookup that knows one earlier request. *)
Definition ledger (request_id : string) : option Gateway.Existing :=
  if (request_id =? "r-1")%string
  then Some (Gateway.mkExisting "n-1" "queued" (ISO 1690000000000))
  else None.

(** A listing backend holding 45 notifications, which it does not show. *)
Definition backend (f : GatewayList.Filters) : GatewayList.ListResult :=
  GatewayList.mkListResult [] 45.

Definition user_world : UserService.World :=
  mkWorld [] [] 1700000000000 tally 0.

(** Stand-ins for the library functions. *)
Definition toy_hash (salt data : string) (rounds : Z) : string :=
  ("hash:" ++ salt ++ ":" ++ data)%string.

Definition toy_compare (data hash : string) : bool :=
  (hash =? "hash::" ++ data)%string.


(** A user table that knows Ada, by email and by identifier. *)
Definition ada : UserService.StoredUser :=
  UserService.mkStoredUser (Some "U1") "Ada" "ada@example.com"
    (Gateway.mkPreferences false true) "hash::secret".

Definition by_email (email : string) : option UserService.StoredUser :=
  if (email =? "ada@example.com")%string then Some ada else None.

Definition by_id (user_id : option string) : option UserService.StoredUser :=
  match user_id with
  | Some id => if (id =? "U1")%string then Some ada else None
  | None => None
  end.

Definition ada_signs_up : UserService.CreateBody :=
  UserService.mkCreateBody "Ada" "ada@example.com" None
    (Gateway.mkPreferences false true) "secret".



End Traffic.

(** * Properties of the gateway routes *)

Import Js Gateway.

(** ** What each branch of the intake handler returns *)

Section IntakeBranches.

Variable check : string -> option Existing.
Variable getUser : string -> option User.
Variable getTemplate : string -> option Template.

Lemma intake_existing (req : Request) (w : World) (e : Existing) :
  check (request_id req) = Some e ->
  post_notification check getUser getTemplate req w =
    (Resolved (mkReply 200
       (Success (mkIntakeData (e_notification_id e) (e_status e)
                              (e_created_at e) None)
                "Notification already processed (idempotent request)")), w).
Proof.
  intros He. unfold post_notification, try_catch, bind, ret.
  now rewrite He.
Qed.

Lemma intake_user_missing (req : Request) (w : World) :
  check (request_id req) = None ->
  getUser (user_id req) = None ->
  post_notification check getUser getTemplate req w =
    (Resolved (mkReply 404
       (Failure "User Not Found"
                ("User with ID " ++ user_id req ++ " not found"))), w).
Proof.
  intros Hc Hu. unfold post_notification, try_catch, bind, ret.
  now rewrite Hc, Hu.
Qed.

Lemma intake_skipped (req : Request) (w : World) (u : User) :
  check (request_id req) = None ->
  getUser (user_id req) = Some u ->
  opted_out (notification_type req) u = true ->
  post_notification check getUser getTemplate req w =
    (Resolved (mkReply 200
       (Success (mkIntakeData (entropy w (drawn w)) "skipped"
                              (ISO (clock w)) None)
                "Notification skipped due to user preferences")),
     mkWorld (console w) (error_log w) (clock w) (entropy w) (S (drawn w))).
Proof.
  intros Hc Hu Ho. unfold post_notification, try_catch, bind, ret.
  rewrite Hc, Hu. unfold opted_out in Ho.
  destruct ((notification_type req =? "email")%string
            && negb (pref_email (preferences u))) eqn:E1.
  - reflexivity.
  - simpl in Ho. rewrite Ho. reflexivity.
Qed.

Lemma intake_template_missing (req : Request) (w : World) (u : User) :
  check (request_id req) = None ->
  getUser (user_id req) = Some u ->
  opted_out (notification_type req) u = false ->
  getTemplate (template_code req) = None ->
  post_notification check getUser getTemplate req w =
    (Resolved (mkReply 400
       (Failure "Template Not Found"
                ("Template with code " ++ template_code req
                 ++ " not found"))), w).
Proof.
  intros Hc Hu Ho Ht. unfold post_notification, try_catch, bind, ret.
  rewrite Hc, Hu, Ht. unfold opted_out in Ho.
  apply orb_false_elim in Ho. destruct Ho as [E1 E2].
  now rewrite E1, E2.
Qed.

Lemma intake_accepted (req : Request) (w : World) (u : User) (t : Template) :
  check (request_id req) = None ->
  getUser (user_id req) = Some u ->
  opted_out (notification_type req) u = false ->
  getTemplate (template_code req) = Some t ->
  time_valid (estimate_instant req w) = true ->
  post_notification check getUser getTemplate req w =
    (Resolved (mkReply 200
       (Success (mkIntakeData (entropy w (drawn w)) "queued" (ISO (clock w))
                   (Some (ISO (clock w
                               + Z.max 1 (11 - accepted_priority req) * 5
                                 * 60 * 1000))))
                "Notification queued successfully")),
     mkWorld ((console w ++ [Creating (record_of (entropy w (drawn w)) req)])
              ++ [Queueing (message_of (entropy w (drawn w)) req)])
             (error_log w) (clock w) (entropy w) (S (drawn w))).
Proof.
  intros Hc Hu Ho Ht Hv.
  unfold post_notification, try_catch, bind, ret.
  rewrite Hc, Hu, Ht. unfold opted_out in Ho.
  apply orb_false_elim in Ho. destruct Ho as [E1 E2].
  rewrite E1, E2.
  unfold Helpers.calculateEstimatedDelivery, Helpers.createNotification,
    Helpers.queueNotification, bind, uuidv4, console_log, Date_now,
    Date_toISOString, new_Date_toISOString, ret.
  cbn [console error_log clock entropy drawn].
  unfold estimate_instant in Hv.
  fold (accepted_priority req). rewrite Hv. reflexivity.
Qed.

(** An accepted request whose estimate falls outside the range of dates:
    the notification is created and enqueued, then [toISOString] throws and
    the handler answers from its [catch] branch. *)
Lemma intake_estimate_out_of_range
      (req : Request) (w : World) (u : User) (t : Template) :
  check (request_id req) = None ->
  getUser (user_id req) = Some u ->
  opted_out (notification_type req) u = false ->
  getTemplate (template_code req) = Some t ->
  time_valid (estimate_instant req w) = false ->
  post_notification check getUser getTemplate req w =
    (Resolved (mkReply 500
       (Failure "Internal Server Error" "Failed to create notification")),
     mkWorld ((console w ++ [Creating (record_of (entropy w (drawn w)) req)])
              ++ [Queueing (message_of (entropy w (drawn w)) req)])
             (error_log w ++ ["Error creating notification:"])
             (clock w) (entropy w) (S (drawn w))).
Proof.
  intros Hc Hu Ho Ht Hv.
  unfold post_notification, try_catch, bind, ret.
  rewrite Hc, Hu, Ht. unfold opted_out in Ho.
  apply orb_false_elim in Ho. destruct Ho as [E1 E2].
  rewrite E1, E2.
  unfold Helpers.calculateEstimatedDelivery, Helpers.createNotification,
    Helpers.queueNotification, bind, uuidv4, console_log, Date_now,
    Date_toISOString, new_Date_toISOString, ret, log_error.
  cbn [console error_log clock entropy drawn].
  unfold estimate_instant in Hv.
  fold (accepted_priority req). rewrite Hv. reflexivity.
Qed.

End IntakeBranches.

(** With the helper functions of the source, every request is accepted. *)
Lemma source_intake (req : Request) (w : World) :
  time_valid (estimate_instant req w) = true ->
  Source.post_notification req w =
    (Resolved (mkReply 200
       (Success (mkIntakeData (entropy w (drawn w)) "queued" (ISO (clock w))
                   (Some (ISO (clock w
                               + Z.max 1 (11 - accepted_priority req) * 5
                                 * 60 * 1000))))
                "Notification queued successfully")),
     mkWorld ((console w ++ [Creating (record_of (entropy w (drawn w)) req)])
              ++ [Queueing (message_of (entropy w (drawn w)) req)])
             (error_log w) (clock w) (entropy w) (S (drawn w))).
Proof.
  intros Hv. unfold Source.post_notification.
  eapply intake_accepted; try reflexivity; [| exact Hv].
  unfold opted_out. simpl. now rewrite !andb_false_r.
Qed.

(** With the helper functions of the source, a request whose estimate falls
    outside the range of dates is created and enqueued and then answered
    with status code 500. *)
Lemma source_intake_out_of_range (req : Request) (w : World) :
  time_valid (estimate_instant req w) = false ->
  Source.post_notification req w =
    (Resolved (mkReply 500
       (Failure "Internal Server Error" "Failed to create notification")),
     mkWorld ((console w ++ [Creating (record_of (entropy w (drawn w)) req)])
              ++ [Queueing (message_of (entropy w (drawn w)) req)])
             (error_log w ++ ["Error creating notification:"])
             (clock w) (entropy w) (S (drawn w))).
Proof.
  intros Hv. unfold Source.post_notification.
  eapply intake_estimate_out_of_range; try reflexivity; [| exact Hv].
  unfold opted_out. simpl. now rewrite !andb_false_r.
Qed.

Lemma created_app (l1 l2 : list Line) :
  created (l1 ++ l2) = (created l1 ++ created l2)%list.
Proof.
  induction l1 as [|[n|m|i u] l1 IH]; simpl; try rewrite IH; reflexivity.
Qed.

Lemma enqueued_app (l1 l2 : list Line) :
  enqueued (l1 ++ l2) = (enqueued l1 ++ enqueued l2)%list.
Proof.
  induction l1 as [|[n|m|i u] l1 IH]; simpl; try rewrite IH; reflexivity.
Qed.

(** The status query answers every identifier with the same placeholder. *)
Lemma status_query (id : string) (w : World) :
  Source.get_notification id w =
    (Resolved (mkReply 200
       (Success (mkStoredNotification id
                   "123e4567-e89b-12d3-a456-426614174000" "email" "pending"
                   (ISO (clock w)) (ISO (clock w)) None None None 0)
                "Notification status retrieved successfully")), w).
Proof. reflexivity. Qed.

(** ** Idempotent intake *)

(** With the helper functions of the source, every intake call creates and
    enqueues one more notification under a newly drawn identifier, whatever
    has been created before. *)
Lemma source_intake_always_creates (req : Request) (w : World) :
  (time_valid (estimate_instant req w) = true ->
   returned_id (Source.post_notification req w) = Some (entropy w (drawn w)))
  /\ created (console (snd (Source.post_notification req w)))
     = (created (console w) ++ [record_of (entropy w (drawn w)) req])%list
  /\ enqueued (console (snd (Source.post_notification req w)))
     = (enqueued (console w) ++ [message_of (entropy w (drawn w)) req])%list
  /\ drawn (snd (Source.post_notification req w)) = S (drawn w).
Proof.
  destruct (time_valid (estimate_instant req w)) eqn:Hv.
  - rewrite (source_intake req w Hv). simpl.
    rewrite !created_app, !enqueued_app. simpl.
    rewrite !app_nil_r. repeat split; reflexivity.
  - rewrite (source_intake_out_of_range req w Hv). simpl.
    rewrite !created_app, !enqueued_app. simpl.
    rewrite !app_nil_r. repeat split. discriminate.
Qed.

(** Were the idempotency lookup to find a record, the handler would answer
    with it and neither create nor enqueue anything. *)
Lemma existing_record_short_circuits
      (check : string -> option Existing) (getUser : string -> option User)
      (getTemplate : string -> option Template)
      (req : Request) (w : World) (e : Existing) :
  check (request_id req) = Some e ->
  returned_id (post_notification check getUser getTemplate req w)
  = Some (e_notification_id e)
  /\ snd (post_notification check getUser getTemplate req w) = w.
Proof.
  intros He. rewrite (intake_existing _ _ _ _ _ _ He). split; reflexivity.
Qed.

(** C1, evaluated on the source: submitting the request [r-1] twice creates
    two notifications for that [request_id], enqueues two messages, and the
    two calls answer with different [notification_id]s, because
    [checkExistingNotification] always answers that nothing exists. *)
Theorem duplicate_request_creates_twice :
  let first := Source.post_notification Scenario.r1 Scenario.world0 in
  let second := Source.post_notification Scenario.r1 (snd first) in
  returned_id first = Some "0b6f3c1e-0000-4000-8000-000000000000"
  /\ returned_id second = Some "0b6f3c1e-0000-4000-8000-000000000001"
  /\ returned_id first <> returned_id second
  /\ List.length (created_for "r-1" (snd second)) = 2%nat
  /\ List.length (enqueued (console (snd second))) = 2%nat.
Proof.
  cbv zeta. repeat split; try reflexivity. vm_compute. discriminate.
Qed.

(** ** Status updates *)

(** C2, as stated, fails: a callback that claims [delivered] for a
    notification whose status is [pending] asks for a move that is not in the
    transition table, and the handler acknowledges it instead of rejecting
    it. *)
Lemma webhook_accepts_illegal_transition :
  queried_status "n-1" Scenario.world0 = Some "pending"
  /\ StatusMachine.legal "pending" (b_status Scenario.claims_delivered) = false
  /\ reply_of (Source.post_notification_status "n-1" Scenario.claims_delivered
                 Scenario.world0)
     = Some (mkReply 200
               (Acknowledged "Notification status updated successfully"))
  /\ (forall rep,
        reply_of (Source.post_notification_status "n-1"
                    Scenario.claims_delivered Scenario.world0) = Some rep ->
        rejected rep = false).
Proof.
  repeat split; try reflexivity.
  intros rep H. vm_compute in H. injection H as <-. reflexivity.
Qed.

(** C2, amended: the handler makes no check against the transition table:
    whatever status an update asks for, legal or not, the handler passes the
    update on to [updateNotificationStatus] with that status and error and
    acknowledges it with success; no update is rejected. *)
Theorem status_update_not_validated :
  forall (id : string) (upd : StatusBody) (w : World),
    exists u : StatusUpdate,
      s_status u = b_status upd
      /\ s_error u = b_error upd
      /\ snd (Source.post_notification_status id upd w)
         = snd (Helpers.updateNotificationStatus id u w)
      /\ reply_of (Source.post_notification_status id upd w)
         = Some (mkReply 200
                   (Acknowledged "Notification status updated successfully"))
      /\ (forall rep,
            reply_of (Source.post_notification_status id upd w) = Some rep ->
            rejected rep = false).
Proof.
  intros id upd w.
  exists (mkStatusUpdate (b_status upd)
            (match b_timestamp upd with
             | Some t => t
             | None => ISO (clock w)
             end)
            (b_error upd)).
  assert (E : Source.post_notification_status id upd w =
              (Resolved (mkReply 200
                 (Acknowledged "Notification status updated successfully")),
               snd (Helpers.updateNotificationStatus id
                      (mkStatusUpdate (b_status upd)
                         (match b_timestamp upd with
                          | Some t => t
                          | None => ISO (clock w)
                          end)
                         (b_error upd)) w))).
  { unfold Source.post_notification_status, post_notification_status,
      try_catch, bind, ret, Helpers.getNotificationById,
      Helpers.updateNotificationStatus, new_Date_toISOString, console_log.
    destruct (b_timestamp upd); reflexivity. }
  rewrite E. repeat split.
  intros rep [= <-]. reflexivity.
Qed.

(** ** Preference opt-out *)

(** C5: an email request for a user whose [preferences.email] is false, and
    a push request for a user whose [preferences.push] is false, is answered
    with status [skipped], a terminal status of the state machine; nothing is
    created, nothing is enqueued and nothing else is printed or logged. *)
Theorem opt_out_is_skipped :
  forall (getUser : string -> option User)
         (getTemplate : string -> option Template)
         (req : Request) (u : User) (w : World),
    getUser (user_id req) = Some u ->
    (notification_type req = "email" /\ pref_email (preferences u) = false)
    \/ (notification_type req = "push" /\ pref_push (preferences u) = false) ->
    let r := post_notification Helpers.checkExistingNotification
               getUser getTemplate req w in
    returned_status r = Some "skipped"
    /\ option_map code (reply_of r) = Some 200
    /\ returned_estimate r = None
    /\ console (snd r) = console w
    /\ enqueued (console (snd r)) = enqueued (console w)
    /\ created (console (snd r)) = created (console w)
    /\ error_log (snd r) = error_log w
    /\ StatusMachine.of_string "skipped" = Some StatusMachine.skipped
    /\ StatusMachine.terminal StatusMachine.skipped = true.
Proof.
  intros getUser getTemplate req u w Hu Hpref r.
  assert (Ho : opted_out (notification_type req) u = true).
  { unfold opted_out. destruct Hpref as [[-> ->] | [-> ->]]; reflexivity. }
  subst r.
  rewrite (intake_skipped _ getUser getTemplate req w u eq_refl Hu Ho).
  repeat split.
Qed.

Lemma opt_out_is_skipped_witness :
  returned_status
    (post_notification Helpers.checkExistingNotification
       Scenario.users Scenario.templates Scenario.r1 Scenario.world0)
  = Some "skipped".
Proof.
  apply (opt_out_is_skipped Scenario.users Scenario.templates Scenario.r1
           (mkUser "U1" "Ada" "ada@example.com" (mkPreferences false true))
           Scenario.world0).
  - reflexivity.
  - left. split; reflexivity.
Defined.

(** ** Failed lookups *)

(** C6: when the user lookup finds nothing, and when the template lookup the
    handler goes on to make (the user exists and has not opted out) finds
    nothing, the handler answers with a not-found failure (status code 404
    with "User Not Found", status code 400 with "Template Not
    Found") and leaves the world as it was: nothing is created, nothing
    is enqueued, no identifier is drawn, and nothing is scheduled again. *)
Theorem failed_lookup_is_rejected :
  forall (getUser : string -> option User)
         (getTemplate : string -> option Template)
         (req : Request) (w : World),
    getUser (user_id req) = None
    \/ (exists u, getUser (user_id req) = Some u
                  /\ opted_out (notification_type req) u = false
                  /\ getTemplate (template_code req) = None) ->
    let r := post_notification Helpers.checkExistingNotification
               getUser getTemplate req w in
    (exists rep, reply_of r = Some rep
                 /\ is_not_found rep = true
                 /\ rejected rep = true
                 /\ code rep = match getUser (user_id req) with
                              | Some _ => 400
                              | None => 404
                              end)
    /\ snd r = w
    /\ created (console (snd r)) = created (console w)
    /\ enqueued (console (snd r)) = enqueued (console w).
Proof.
  intros getUser getTemplate req w H r. subst r.
  destruct H as [Hu | [u [Hu [Ho Ht]]]].
  - rewrite (intake_user_missing _ getUser getTemplate req w eq_refl Hu).
    rewrite Hu. simpl. repeat split. eexists. repeat split.
  - rewrite (intake_template_missing _ getUser getTemplate req w u
               eq_refl Hu Ho Ht).
    rewrite Hu. simpl. repeat split. eexists. repeat split.
Qed.

Lemma failed_lookup_is_rejected_witness :
  snd (post_notification Helpers.checkExistingNotification
         Scenario.users Scenario.templates Scenario.unknown_user
         Scenario.world0) = Scenario.world0
  /\ snd (post_notification Helpers.checkExistingNotification
            Scenario.users Scenario.templates Scenario.unknown_template
            Scenario.world0) = Scenario.world0.
Proof.
  split.
  - apply (failed_lookup_is_rejected Scenario.users Scenario.templates
             Scenario.unknown_user Scenario.world0).
    left. reflexivity.
  - apply (failed_lookup_is_rejected Scenario.users Scenario.templates
             Scenario.unknown_template Scenario.world0).
    right.
    exists (mkUser "U1" "Ada" "ada@example.com" (mkPreferences false true)).
    repeat split.
Defined.

(** ** What a skipped intake leaves behind *)


(** What holds of a skipped intake: the returned [notification_id] is a new
    draw of the identifier source, and nothing else changes: the console
    (so every created record and every enqueued message), the error log and
    the clock are as before.  A later status query for that identifier is
    answered exactly as it would have been without the intake, and never
    with a skipped notification. *)
Theorem skipped_intake_leaves_no_trace :
  forall (getUser : string -> option User)
         (getTemplate : string -> option Template)
         (req : Request) (u : User) (w : World),
    getUser (user_id req) = Some u ->
    opted_out (notification_type req) u = true ->
    let r := post_notification Helpers.checkExistingNotification
               getUser getTemplate req w in
    let id := entropy w (drawn w) in
    returned_status r = Some "skipped"
    /\ returned_id r = Some id
    /\ drawn (snd r) = S (drawn w)
    /\ console (snd r) = console w
    /\ created (console (snd r)) = created (console w)
    /\ enqueued (console (snd r)) = enqueued (console w)
    /\ error_log (snd r) = error_log w
    /\ clock (snd r) = clock w
    /\ entropy (snd r) = entropy w
    /\ (forall ms,
          fst (Source.get_notification id (elapse ms (snd r)))
          = fst (Source.get_notification id (elapse ms w)))
    /\ (forall ms,
          queried_status id (elapse ms (snd r)) <> Some "skipped").
Proof.
  intros getUser getTemplate req u w Hu Ho r id. subst r id.
  rewrite (intake_skipped _ getUser getTemplate req w u eq_refl Hu Ho).
  repeat split.
  intros ms. unfold queried_status. rewrite status_query. simpl. discriminate.
Qed.

Lemma skipped_intake_leaves_no_trace_witness :
  opted_out (notification_type Scenario.r1)
    (mkUser "U1" "Ada" "ada@example.com" (mkPreferences false true)) = true
  /\ console (snd (post_notification Helpers.checkExistingNotification
                     Scenario.users Scenario.templates Scenario.r1
                     Scenario.world0)) = []
  /\ queried_status "0b6f3c1e-0000-4000-8000-000000000000"
       (snd (post_notification Helpers.checkExistingNotification
               Scenario.users Scenario.templates Scenario.r1
               Scenario.world0)) <> Some "skipped".
Proof.
  pose proof (skipped_intake_leaves_no_trace Scenario.users Scenario.templates
                Scenario.r1
                (mkUser "U1" "Ada" "ada@example.com" (mkPreferences false true))
                Scenario.world0 eq_refl eq_refl) as H.
  cbv zeta in H.
  destruct H as (_ & _ & _ & Hc & _ & _ & _ & _ & _ & _ & Hq).
  split; [reflexivity | split].
  - exact Hc.
  - intros E. apply (Hq 0). exact E.
Defined.

(** ** Accepted intake *)

(** C7, as stated, fails: for the accepted request [r-1] the handler
    answers with status [queued], while the record it created carries status
    [pending] and the status query reports [pending] when the answer is
    given. *)
Lemma returned_status_differs_from_stored :
  let r := Source.post_notification Scenario.r1 Scenario.world0 in
  returned_status r = Some "queued"
  /\ returned_id r = Some "0b6f3c1e-0000-4000-8000-000000000000"
  /\ map n_status (created (console (snd r))) = ["pending"]
  /\ queried_status "0b6f3c1e-0000-4000-8000-000000000000" (snd r)
     = Some "pending"
  /\ returned_status r
     <> queried_status "0b6f3c1e-0000-4000-8000-000000000000" (snd r).
Proof.
  cbv zeta. repeat split; try reflexivity. vm_compute. discriminate.
Qed.

(** C7, amended: for every intake request the handler accepts with
    success (the user is known and has not opted out, the template is
    known, and the estimated delivery is within the range of dates), the
    handler first creates the notification with status [pending] and then
    enqueues it, both under the identifier it returns to the caller with
    status code 200. *)
Theorem accepted_intake_creates_then_enqueues :
  forall (getUser : string -> option User)
         (getTemplate : string -> option Template)
         (req : Request) (u : User) (t : Template) (w : World),
    getUser (user_id req) = Some u ->
    opted_out (notification_type req) u = false ->
    getTemplate (template_code req) = Some t ->
    time_valid (estimate_instant req w) = true ->
    let r := post_notification Helpers.checkExistingNotification
               getUser getTemplate req w in
    exists (id : string) (n : NotificationRecord) (m : QueueMessage),
      returned_id r = Some id
      /\ option_map code (reply_of r) = Some 200
      /\ console (snd r) = (console w ++ [Creating n; Queueing m])%list
      /\ n_status n = "pending"
      /\ n_notification_id n = id
      /\ n_request_id n = request_id req
      /\ q_notification_id m = id
      /\ error_log (snd r) = error_log w.
Proof.
  intros getUser getTemplate req u t w Hu Ho Ht Hv r. subst r.
  rewrite (intake_accepted _ getUser getTemplate req w u t eq_refl Hu Ho Ht
             Hv).
  exists (entropy w (drawn w)), (record_of (entropy w (drawn w)) req),
    (message_of (entropy w (drawn w)) req).
  simpl. rewrite <- app_assoc. repeat split.
Qed.

Lemma accepted_intake_creates_then_enqueues_witness :
  exists (id : string) (n : NotificationRecord) (m : QueueMessage),
    returned_id (post_notification Helpers.checkExistingNotification
                   Scenario.users Scenario.templates Scenario.r1_push
                   Scenario.world0) = Some id
    /\ console (snd (post_notification Helpers.checkExistingNotification
                       Scenario.users Scenario.templates Scenario.r1_push
                       Scenario.world0))
       = ([] ++ [Creating n; Queueing m])%list
    /\ n_status n = "pending"
    /\ n_notification_id n = id
    /\ n_request_id n = "r-1"
    /\ q_notification_id m = id.
Proof.
  destruct (accepted_intake_creates_then_enqueues Scenario.users
              Scenario.templates Scenario.r1_push
              (mkUser "U1" "Ada" "ada@example.com" (mkPreferences false true))
              (mkTemplate "welcome" "Welcome" "Hello {{name}}")
              Scenario.world0 eq_refl eq_refl eq_refl eq_refl)
    as (id & n & m & H1 & _ & H3 & H4 & H5 & H6 & H7 & _).
  exists id, n, m. repeat split; assumption.
Defined.

(** ** Estimated delivery *)

(** C10: for a priority [p] between 1 and 10, intake answers with an
    estimated delivery of the current time plus [max(1, 11 - p) * 5]
    minutes, which lies between 5 and 50 minutes from the call, and a
    strictly higher priority at the same time gives a strictly earlier
    estimate.  The current time is any time value that leaves those 50
    minutes before the end of the range of dates. *)
Theorem estimated_delivery_by_priority :
  forall (req : Request) (p : Z) (w : World),
    clock_has_room w ->
    priority req = Some p ->
    1 <= p <= 10 ->
    returned_estimate (Source.post_notification req w)
    = Some (clock w + minutes (Z.max 1 (11 - p) * 5))
    /\ fst (Helpers.calculateEstimatedDelivery p w)
       = Resolved (ISO (clock w + minutes (Z.max 1 (11 - p) * 5)))
    /\ clock w + minutes 5 <= clock w + minutes (Z.max 1 (11 - p) * 5)
       <= clock w + minutes 50
    /\ (forall (req' : Request) (q : Z),
          priority req' = Some q ->
          1 <= q <= 10 ->
          p < q ->
          exists e e' : Z,
            returned_estimate (Source.post_notification req w) = Some e
            /\ returned_estimate (Source.post_notification req' w) = Some e'
            /\ e' < e).
Proof.
  intros req p w [Hlo Hhi] Hp Hr. unfold minutes in Hhi.
  assert (V : forall x, 1 <= x <= 10 ->
              time_valid (clock w + Z.max 1 (11 - x) * 5 * 60 * 1000) = true).
  { intros x Hx. unfold time_valid, max_time in *.
    apply andb_true_intro. split; apply Z.leb_le; lia. }
  assert (E : forall r x, priority r = Some x -> 1 <= x <= 10 ->
              returned_estimate (Source.post_notification r w)
              = Some (clock w + minutes (Z.max 1 (11 - x) * 5))).
  { intros r x Hx Hxr. rewrite source_intake.
    - unfold returned_estimate. simpl.
      unfold accepted_priority, minutes. rewrite Hx. reflexivity.
    - unfold estimate_instant, accepted_priority. rewrite Hx. now apply V. }
  split; [now apply E |]. split.
  { unfold Helpers.calculateEstimatedDelivery, bind, Date_now,
      Date_toISOString. rewrite (V p Hr). unfold minutes. cbn [fst].
    do 2 f_equal. }
  split.
  - unfold minutes. lia.
  - intros req' q Hq Hqr Hlt.
    exists (clock w + minutes (Z.max 1 (11 - p) * 5)),
      (clock w + minutes (Z.max 1 (11 - q) * 5)).
    split; [now apply E |]. split; [now apply E |]. unfold minutes. lia.
Qed.

Lemma estimated_delivery_by_priority_witness :
  returned_estimate (Source.post_notification Scenario.r1 Scenario.world0)
  = Some (1700000000000 + minutes 30)
  /\ exists e e' : Z,
       returned_estimate (Source.post_notification Scenario.r1 Scenario.world0)
       = Some e
       /\ returned_estimate
            (Source.post_notification Scenario.urgent Scenario.world0)
          = Some e'
       /\ e' < e.
Proof.
  pose proof (estimated_delivery_by_priority Scenario.r1 5 Scenario.world0
                ltac:(split; vm_compute; discriminate)
                eq_refl ltac:(lia)) as (H1 & _ & _ & H4).
  split.
  - exact H1.
  - apply (H4 Scenario.urgent 9); [reflexivity | lia | lia].
Defined.

(** The gateway itself never counts a retry: the status query reports a
    retry count of 0 for every identifier. *)
Lemma source_retry_count_is_zero (id : string) (w : World) :
  queried_retry_count id w = Some 0.
Proof. reflexivity. Qed.

(** * Properties of the retry manager *)

Section RetryBound.

Import StatusMachine RetryManager.

Variable cfg : RetryManager.Config.

Lemma apply_event_frame (n n' : Notification) (e : Event) :
  apply_event n e = Some n' ->
  channel n' = channel n /\ retry_count n' = retry_count n
  /\ enqueues n' = enqueues n /\ transition (status n) e = Some (status n').
Proof.
  unfold apply_event. destruct (transition (status n) e) eqn:E; [|discriminate].
  intros [= <-]. simpl. auto.
Qed.

Lemma terminal_rejects (n : Notification) (i : Input) :
  terminal (status n) = true -> step cfg n i = None.
Proof.
  intros Ht.
  assert (Hnone : forall e, apply_event n e = None).
  { intros e. unfold apply_event.
    destruct (status n); try discriminate Ht; destruct e; reflexivity. }
  destruct i; simpl; rewrite ?Hnone; reflexivity.
Qed.

(** A step never pushes [retry_count] past [max_retries]. *)
Lemma step_preserves_bound (n : Notification) (i : Input) :
  (retry_count n <= max_retries cfg)%nat ->
  (retry_count (step_or_keep cfg n i) <= max_retries cfg)%nat.
Proof.
  intros Hb. unfold step_or_keep.
  destruct (step cfg n i) as [n'|] eqn:Hs; [|exact Hb].
  destruct i; simpl in Hs;
    try (destruct (apply_event n _) as [n1|] eqn:E; [|discriminate];
         apply apply_event_frame in E; destruct E as (_ & Er & _);
         simpl in Hs; injection Hs as <-; simpl; rewrite ?Er; exact Hb).
  destruct (apply_event n channel_rejected) as [n1|] eqn:E; [|discriminate].
  apply apply_event_frame in E. destruct E as (_ & Er & _).
  unfold onFailure in Hs.
  destruct (max_retries cfg <=? retry_count n1)%nat eqn:Hm.
  - destruct (apply_event n1 retries_exhausted) as [n2|] eqn:E2;
      [|discriminate].
    apply apply_event_frame in E2. destruct E2 as (_ & Er2 & _).
    simpl in Hs. injection Hs as <-. simpl. rewrite Er2, Er. exact Hb.
  - apply Nat.leb_gt in Hm.
    destruct (apply_event (increment n1) retry_scheduled) as [n2|] eqn:E2;
      [|discriminate].
    apply apply_event_frame in E2. destruct E2 as (_ & Er2 & _).
    simpl in Hs. injection Hs as <-. simpl. rewrite Er2. simpl. lia.
Qed.

Lemma run_preserves_bound (inputs : list Input) (n : Notification) :
  (retry_count n <= max_retries cfg)%nat ->
  (retry_count (run cfg n inputs) <= max_retries cfg)%nat.
Proof.
  revert n. induction inputs as [|i inputs IH]; intros n Hb; simpl.
  - exact Hb.
  - apply IH. now apply step_preserves_bound.
Qed.

(** Every status a run goes through is reachable in the transition table. *)
Lemma step_reachable (n : Notification) (i : Input) :
  reachable (status n) -> reachable (status (step_or_keep cfg n i)).
Proof.
  intros Hr. unfold step_or_keep.
  destruct (step cfg n i) as [n'|] eqn:Hs; [|exact Hr].
  destruct i; simpl in Hs;
    try (destruct (apply_event n _) as [n1|] eqn:E; [|discriminate];
         apply apply_event_frame in E; destruct E as (_ & _ & _ & Et);
         simpl in Hs; injection Hs as <-; simpl;
         eapply reachable_step; eassumption).
  destruct (apply_event n channel_rejected) as [n1|] eqn:E; [|discriminate].
  apply apply_event_frame in E. destruct E as (_ & _ & _ & Et).
  assert (Hr1 : reachable (status n1)) by (eapply reachable_step; eassumption).
  destruct (onFailure cfg jitter (retry_count n1)).
  - destruct (apply_event (increment n1) retry_scheduled) as [n2|] eqn:E2;
      [|discriminate].
    apply apply_event_frame in E2. destruct E2 as (_ & _ & _ & Et2).
    simpl in Hs. injection Hs as <-. simpl.
    eapply reachable_step; eassumption.
  - destruct (apply_event n1 retries_exhausted) as [n2|] eqn:E2;
      [|discriminate].
    apply apply_event_frame in E2. destruct E2 as (_ & _ & _ & Et2).
    simpl in Hs. injection Hs as <-. simpl.
    eapply reachable_step; eassumption.
Qed.

Lemma run_reachable (inputs : list Input) (n : Notification) :
  reachable (status n) -> reachable (status (run cfg n inputs)).
Proof.
  revert n. induction inputs as [|i inputs IH]; intros n Hr; simpl.
  - exact Hr.
  - apply IH. now apply step_reachable.
Qed.

Lemma run_terminal (inputs : list Input) (n : Notification) :
  terminal (status n) = true -> run cfg n inputs = n.
Proof.
  intros Ht. induction inputs as [|i inputs IH]; simpl.
  - reflexivity.
  - change (run cfg (step_or_keep cfg n i) inputs = n).
    unfold step_or_keep. rewrite (terminal_rejects n i Ht). exact IH.
Qed.

(** A failed send at the retry limit dead-letters the notification. *)
Lemma failure_at_limit (n : Notification) (jitter : Q) :
  status n = processing ->
  (max_retries cfg <= retry_count n)%nat ->
  step cfg n (SendFailed jitter)
  = Some (mkNotification (channel n) dead_lettered (retry_count n)
            (enqueues n ++ [(failed_queue, 0%Q)])).
Proof.
  intros Hs Hm. simpl. unfold apply_event at 1. rewrite Hs. simpl.
  unfold onFailure. simpl.
  apply Nat.leb_le in Hm. rewrite Hm. reflexivity.
Qed.

End RetryBound.

(** C3: along every sequence of inputs, a notification's [retry_count]
    stays at or below [max_retries]; a send that fails once the limit has
    been reached moves the notification to [dead_lettered], on the failed
    queue; and a dead-lettered notification stays as it is under every
    further input, so that it is never enqueued again. *)
Theorem retry_count_bounded :
  forall (cfg : RetryManager.Config) (c : RetryManager.Channel)
         (inputs : list RetryManager.Input),
    let n := RetryManager.run cfg (RetryManager.intake c) inputs in
    (RetryManager.retry_count n <= RetryManager.max_retries cfg)%nat
    /\ (RetryManager.status n = StatusMachine.processing ->
        (RetryManager.max_retries cfg <= RetryManager.retry_count n)%nat ->
        forall jitter,
          exists n',
            RetryManager.step cfg n (RetryManager.SendFailed jitter) = Some n'
            /\ RetryManager.status n' = StatusMachine.dead_lettered
            /\ RetryManager.retry_count n' = RetryManager.retry_count n
            /\ RetryManager.enqueues n'
               = (RetryManager.enqueues n
                  ++ [(RetryManager.failed_queue, 0%Q)])%list)
    /\ (RetryManager.status n = StatusMachine.dead_lettered ->
        forall more,
          RetryManager.run cfg n more = n
          /\ RetryManager.enqueues (RetryManager.run cfg n more)
             = RetryManager.enqueues n).
Proof.
  intros cfg c inputs n. split; [|split].
  - apply run_preserves_bound. simpl. lia.
  - intros Hs Hm jitter. eexists. split.
    + apply failure_at_limit; assumption.
    + repeat split.
  - intros Hd more.
    assert (E : RetryManager.run cfg n more = n).
    { apply run_terminal. rewrite Hd. reflexivity. }
    split; [exact E | now rewrite E].
Qed.

Lemma retry_count_bounded_witness :
  RetryManager.status
    (RetryManager.run Scenario.retry_cfg
       (RetryManager.intake RetryManager.email) Scenario.always_failing)
  = StatusMachine.dead_lettered
  /\ (exists n',
        RetryManager.step Scenario.retry_cfg
          (RetryManager.run Scenario.retry_cfg
             (RetryManager.intake RetryManager.email)
             (removelast Scenario.always_failing))
          (RetryManager.SendFailed 0) = Some n'
        /\ RetryManager.status n' = StatusMachine.dead_lettered)
  /\ RetryManager.run Scenario.retry_cfg
       (RetryManager.run Scenario.retry_cfg
          (RetryManager.intake RetryManager.email) Scenario.always_failing)
       [RetryManager.Enqueue; RetryManager.PickUp; RetryManager.SendFailed 0]
     = RetryManager.run Scenario.retry_cfg
         (RetryManager.intake RetryManager.email) Scenario.always_failing.
Proof.
  split; [reflexivity | split].
  - pose proof (retry_count_bounded Scenario.retry_cfg RetryManager.email
                  (removelast Scenario.always_failing)) as H.
    cbv zeta in H. destruct H as (_ & H & _).
    destruct (H eq_refl ltac:(vm_compute; lia) 0%Q) as (n' & Hs & Hd & _).
    exists n'. split; assumption.
  - pose proof (retry_count_bounded Scenario.retry_cfg RetryManager.email
                  Scenario.always_failing) as H.
    cbv zeta in H. destruct H as (_ & _ & H).
    apply (H eq_refl).
Defined.

(** The specification's second scenario, without jitter: three retries are
    scheduled after 1 s, 2 s and 4 s, then the notification is dead-lettered
    onto the failed queue with [retry_count] 3. *)
Example always_failing_is_dead_lettered :
  RetryManager.run Scenario.retry_cfg
    (RetryManager.intake RetryManager.email) Scenario.always_failing
  = RetryManager.mkNotification RetryManager.email
      StatusMachine.dead_lettered 3
      [(RetryManager.email_queue, 0%Q);
       (RetryManager.email_queue, 1000%Q);
       (RetryManager.email_queue, 2000%Q);
       (RetryManager.email_queue, 4000%Q);
       (RetryManager.failed_queue, 0%Q)].
Proof. vm_compute. reflexivity. Qed.

(** * Properties of the backoff schedule *)

Section Backoff.

Import RetryManager.
Local Open Scope Q_scope.

(** Below the retry limit a failure schedules the jittered, capped
    backoff. *)
Lemma scheduled_below_limit (cfg : Config) (jitter : Q) (k : nat) :
  (k < max_retries cfg)%nat ->
  scheduled_delay cfg jitter k
  = Some (with_jitter (backoff cfg k) jitter).
Proof.
  intros Hk. unfold scheduled_delay, onFailure.
  apply Nat.leb_gt in Hk. now rewrite Hk.
Qed.

(** The jittered delay is within 20% of the capped backoff. *)
Lemma jitter_bounds (d jitter : Q) :
  0 <= d -> jitter_ok jitter -> within_jitter d (with_jitter d jitter).
Proof.
  unfold jitter_ok, within_jitter, with_jitter. intros Hd [Hl Hu].
  split; nra.
Qed.

Lemma backoff_nonneg (cfg : Config) (k : nat) :
  0 <= base_delay cfg -> 0 <= max_delay cfg -> 0 <= backoff cfg k.
Proof.
  intros Hb Hm. unfold backoff. apply Q.min_glb; [exact Hm |].
  assert (H : 0 <= inject_Z (2 ^ Z.of_nat k)).
  { change 0 with (inject_Z 0). rewrite <- Zle_Qle. apply Z.pow_nonneg. lia. }
  nra.
Qed.

(** While the cap is not reached, the backoff is [base * 2^k]. *)
Lemma backoff_uncapped (cfg : Config) (k : nat) :
  base_delay cfg * inject_Z (2 ^ Z.of_nat k) <= max_delay cfg ->
  backoff cfg k == base_delay cfg * inject_Z (2 ^ Z.of_nat k).
Proof. intros H. unfold backoff. now apply Q.min_r. Qed.

End Backoff.

(** C8, as stated, fails once the cap is reached: with base 1000 and cap
    1500, the failure at count 1 with jitter +20% is retried after more
    than the failure at count 2 with jitter -20%, and that second delay is
    below the jitter bounds of [base * 2^2]; it is below them as well when
    the jitter is applied before the cap, whatever the jitter. *)
Lemma capped_delay_decreases :
  RetryManager.jitter_ok (1 # 5)
  /\ RetryManager.jitter_ok (- (1 # 5))
  /\ (exists d1 d2 : Q,
        RetryManager.scheduled_delay Scenario.tight_cfg (1 # 5) 1 = Some d1
        /\ RetryManager.scheduled_delay Scenario.tight_cfg (- (1 # 5)) 2
           = Some d2
        /\ (d2 < d1)%Q
        /\ ~ RetryManager.within_jitter
             (RetryManager.base_delay Scenario.tight_cfg
              * inject_Z (2 ^ Z.of_nat 2)) d2)
  /\ (forall j : Q,
        ~ RetryManager.within_jitter
            (RetryManager.base_delay Scenario.tight_cfg
             * inject_Z (2 ^ Z.of_nat 2))
            (RetryManager.jitter_then_cap Scenario.tight_cfg j 2)).
Proof.
  split; [|split; [|split]].
  - split; vm_compute; discriminate.
  - split; vm_compute; discriminate.
  - eexists. eexists. split; [vm_compute; reflexivity |].
    split; [vm_compute; reflexivity |]. split.
    + vm_compute. reflexivity.
    + intros [H _]. vm_compute in H. apply H. reflexivity.
  - intros j [H _]. unfold RetryManager.jitter_then_cap in H.
    pose proof (Q.le_min_l (RetryManager.max_delay Scenario.tight_cfg)
                  (RetryManager.with_jitter
                     (RetryManager.base_delay Scenario.tight_cfg
                      * inject_Z (2 ^ Z.of_nat 2)) j)) as Hm.
    change (RetryManager.max_delay Scenario.tight_cfg) with 1500%Q in *.
    change (RetryManager.base_delay Scenario.tight_cfg
            * inject_Z (2 ^ Z.of_nat 2))%Q with (1000 * 4)%Q in *.
    lra.
Qed.

(** C8, amended: with a non-negative base and maximum, a failure at a retry
    count below [max_retries] is retried after [base * 2^retry_count]
    capped at the configured maximum, within 20% of that capped value; and
    when moreover the cap is not reached at count 2 ([base * 4 <= maximum]
    with a positive base and more than 2 retries allowed), the delays of
    consecutive failures at counts 0, 1 and 2 are non-decreasing and each
    stays within the jitter bounds of [base * 2^n]. *)
Theorem backoff_growth :
  forall cfg : RetryManager.Config,
    (forall (k : nat) (j : Q),
        (0 <= RetryManager.base_delay cfg)%Q ->
        (0 <= RetryManager.max_delay cfg)%Q ->
        (k < RetryManager.max_retries cfg)%nat ->
        RetryManager.jitter_ok j ->
        exists d : Q,
          RetryManager.scheduled_delay cfg j k = Some d
          /\ (d == Qmin (RetryManager.max_delay cfg)
                     (RetryManager.base_delay cfg * inject_Z (2 ^ Z.of_nat k))
                  * (1 + j))%Q
          /\ RetryManager.within_jitter
               (Qmin (RetryManager.max_delay cfg)
                     (RetryManager.base_delay cfg
                      * inject_Z (2 ^ Z.of_nat k))) d)
    /\ (forall j0 j1 j2 : Q,
          (0 < RetryManager.base_delay cfg)%Q ->
          (RetryManager.base_delay cfg * 4 <= RetryManager.max_delay cfg)%Q ->
          (2 < RetryManager.max_retries cfg)%nat ->
          RetryManager.jitter_ok j0 ->
          RetryManager.jitter_ok j1 ->
          RetryManager.jitter_ok j2 ->
          exists d0 d1 d2 : Q,
            RetryManager.scheduled_delay cfg j0 0 = Some d0
            /\ RetryManager.scheduled_delay cfg j1 1 = Some d1
            /\ RetryManager.scheduled_delay cfg j2 2 = Some d2
            /\ (d0 <= d1)%Q /\ (d1 <= d2)%Q
            /\ RetryManager.within_jitter (RetryManager.base_delay cfg * 1) d0
            /\ RetryManager.within_jitter (RetryManager.base_delay cfg * 2) d1
            /\ RetryManager.within_jitter
                 (RetryManager.base_delay cfg * 4) d2).
Proof.
  intros cfg. split.
  - intros k j Hb Hm Hk Hj. eexists.
    split; [now apply scheduled_below_limit |].
    split; [reflexivity |].
    apply jitter_bounds; [| exact Hj].
    now apply (backoff_nonneg cfg k).
  - intros j0 j1 j2 Hb Hcap Hmax [L0 U0] [L1 U1] [L2 U2].
    exists (RetryManager.with_jitter (RetryManager.backoff cfg 0) j0),
      (RetryManager.with_jitter (RetryManager.backoff cfg 1) j1),
      (RetryManager.with_jitter (RetryManager.backoff cfg 2) j2).
    split; [apply scheduled_below_limit; lia |].
    split; [apply scheduled_below_limit; lia |].
    split; [apply scheduled_below_limit; lia |].
    assert (E0 : (RetryManager.backoff cfg 0
                  == RetryManager.base_delay cfg * 1)%Q).
    { apply (backoff_uncapped cfg 0).
      change (inject_Z (2 ^ Z.of_nat 0)) with 1%Q. lra. }
    assert (E1 : (RetryManager.backoff cfg 1
                  == RetryManager.base_delay cfg * 2)%Q).
    { apply (backoff_uncapped cfg 1).
      change (inject_Z (2 ^ Z.of_nat 1)) with 2%Q. lra. }
    assert (E2 : (RetryManager.backoff cfg 2
                  == RetryManager.base_delay cfg * 4)%Q).
    { apply (backoff_uncapped cfg 2).
      change (inject_Z (2 ^ Z.of_nat 2)) with 4%Q. lra. }
    unfold RetryManager.within_jitter, RetryManager.with_jitter.
    rewrite E0, E1, E2.
    repeat split; nra.
Qed.

Lemma backoff_growth_witness :
  (exists d : Q,
      RetryManager.scheduled_delay Scenario.tight_cfg (- (1 # 5)) 2 = Some d
      /\ RetryManager.within_jitter
           (Qmin (RetryManager.max_delay Scenario.tight_cfg)
                 (RetryManager.base_delay Scenario.tight_cfg
                  * inject_Z (2 ^ Z.of_nat 2))) d)
  /\ exists d0 d1 d2 : Q,
       RetryManager.scheduled_delay Scenario.retry_cfg (1 # 5) 0 = Some d0
       /\ RetryManager.scheduled_delay Scenario.retry_cfg (- (1 # 5)) 1
          = Some d1
       /\ RetryManager.scheduled_delay Scenario.retry_cfg 0 2 = Some d2
       /\ (d0 <= d1)%Q /\ (d1 <= d2)%Q
       /\ RetryManager.within_jitter
            (RetryManager.base_delay Scenario.retry_cfg * 1) d0
       /\ RetryManager.within_jitter
            (RetryManager.base_delay Scenario.retry_cfg * 2) d1
       /\ RetryManager.within_jitter
            (RetryManager.base_delay Scenario.retry_cfg * 4) d2.
Proof.
  split.
  - destruct (backoff_growth Scenario.tight_cfg) as (H & _).
    destruct (H 2%nat (- (1 # 5))%Q) as (d & Hd & _ & Hw).
    + vm_compute. discriminate.
    + vm_compute. discriminate.
    + simpl. lia.
    + split; vm_compute; discriminate.
    + exists d. split; assumption.
  - destruct (backoff_growth Scenario.retry_cfg) as (_ & H).
    apply (H (1 # 5) (- (1 # 5)) 0)%Q.
    + reflexivity.
    + vm_compute. discriminate.
    + simpl. lia.
    + split; vm_compute; discriminate.
    + split; vm_compute; discriminate.
    + split; vm_compute; discriminate.
Defined.

(** * Properties of the circuit breaker *)

Section BreakerFacts.

Import CircuitBreaker.

Variable cfg : CircuitBreaker.Config.








End BreakerFacts.



(** * Further properties of the gateway routes *)

(** ** Pagination *)

(** X1: for a non-negative total and a limit of at least 1, the
    [total_pages] of a list reply is the least number of pages of [limit]
    items that hold [total] items; it is 0 exactly when there is nothing to
    list. *)
Theorem total_pages_is_least_cover :
  forall total limit page : Z,
    0 <= total ->
    1 <= limit ->
    exists n : Z,
      Pagination.total_pages (Pagination.meta total limit page)
      = Pagination.Finite n
      /\ 0 <= n
      /\ total <= n * limit
      /\ (forall m : Z, total <= m * limit -> n <= m)
      /\ (n = 0 <-> total = 0).
Proof.
  intros total limit page Ht Hl.
  exists (- ((- total) / limit)).
  assert (Hq := Z.div_mod (- total) limit ltac:(lia)).
  assert (Hr := Z.mod_pos_bound (- total) limit ltac:(lia)).
  unfold Pagination.meta, Pagination.ceil_ratio. simpl.
  replace (limit =? 0) with false by (symmetry; apply Z.eqb_neq; lia).
  split; [reflexivity |].
  repeat split; nia.
Qed.

Lemma total_pages_is_least_cover_witness :
  exists n : Z,
    Pagination.total_pages (Pagination.meta 45 20 2) = Pagination.Finite n
    /\ 0 <= n
    /\ 45 <= n * 20
    /\ (forall m : Z, 45 <= m * 20 -> n <= m)
    /\ (n = 0 <-> 45 = 0).
Proof. apply (total_pages_is_least_cover 45 20 2); lia. Defined.

(** The [has_next] flag says whether items remain beyond the page. *)
Lemma meta_has_next (total limit page : Z) :
  0 <= total ->
  1 <= limit ->
  (Pagination.has_next (Pagination.meta total limit page) = true
   <-> page * limit < total)
  /\ (Pagination.has_previous (Pagination.meta total limit page) = true
      <-> 1 < page).
Proof.
  intros Ht Hl.
  assert (Hq := Z.div_mod (- total) limit ltac:(lia)).
  assert (Hr := Z.mod_pos_bound (- total) limit ltac:(lia)).
  unfold Pagination.meta, Pagination.ceil_ratio. simpl.
  replace (limit =? 0) with false by (symmetry; apply Z.eqb_neq; lia).
  simpl. rewrite !Z.ltb_lt. split; [split; intros H; nia | reflexivity].
Qed.

(** X2: the list route of the gateway answers with the items and the total
    its helper returns and leaves the world as it was; for a non-negative
    total and a limit of at least 1 (20 when the query gives none),
    [has_next] is true exactly when items remain beyond the requested page
    (page 1 when the query gives none), and [has_previous] exactly when the
    page is beyond the first. *)
Theorem list_reply_pages :
  forall (listNotifications : GatewayList.Filters -> GatewayList.ListResult)
         (q : GatewayList.ListQuery) (w : World),
    let page := match GatewayList.lq_page q with Some p => p | None => 1 end in
    let limit :=
      match GatewayList.lq_limit q with Some l => l | None => 20 end in
    let result :=
      listNotifications
        (GatewayList.mkFilters (GatewayList.lq_user_id q)
           (GatewayList.lq_notification_type q) (GatewayList.lq_status q)
           page limit (GatewayList.lq_start_date q)
           (GatewayList.lq_end_date q)) in
    0 <= GatewayList.total result ->
    1 <= limit ->
    exists m : Pagination.Meta,
      reply_of (GatewayList.get_notifications listNotifications q w)
      = Some (mkReply 200
                (Success (GatewayList.mkListData
                            (GatewayList.notifications result) m)
                         "Notifications retrieved successfully"))
      /\ Pagination.m_total m = GatewayList.total result
      /\ Pagination.m_page m = page
      /\ Pagination.m_limit m = limit
      /\ (Pagination.has_next m = true
          <-> page * limit < GatewayList.total result)
      /\ (Pagination.has_previous m = true <-> 1 < page)
      /\ snd (GatewayList.get_notifications listNotifications q w) = w.
Proof.
  intros listNotifications q w page limit result Ht Hl.
  exists (Pagination.meta (GatewayList.total result) limit page).
  destruct (meta_has_next (GatewayList.total result) limit page Ht Hl)
    as [Hn Hp].
  repeat split; try apply Hn; try apply Hp.
Qed.

Lemma list_reply_pages_witness :
  exists m : Pagination.Meta,
    GatewayList.returned_meta
      (GatewayList.get_notifications Traffic.backend
         (GatewayList.mkListQuery None None None (Some 2) None None None)
         Traffic.gateway_world) = Some m
    /\ Pagination.has_next m = true
    /\ Pagination.has_previous m = true.
Proof.
  destruct (list_reply_pages Traffic.backend
              (GatewayList.mkListQuery None None None (Some 2) None None None)
              Traffic.gateway_world ltac:(vm_compute; discriminate)
              ltac:(vm_compute; discriminate))
    as (m & Hr & _ & _ & _ & Hn & Hp & _).
  exists m. split; [|split].
  - unfold GatewayList.returned_meta. rewrite Hr. reflexivity.
  - apply Hn. vm_compute. reflexivity.
  - apply Hp. vm_compute. reflexivity.
Defined.

(** X3: with the helper of the source, which knows no notification, the
    list route answers every query whose page is at least 0 with no items,
    a total of 0 and [has_next] false, whatever the filters and the limit,
    and leaves the world as it was. *)
Theorem source_list_is_empty :
  forall (q : GatewayList.ListQuery) (w : World),
    0 <= match GatewayList.lq_page q with Some p => p | None => 1 end ->
    exists m : Pagination.Meta,
      reply_of (GatewayList.get_notifications GatewayList.listNotifications
                  q w)
      = Some (mkReply 200
                (Success (GatewayList.mkListData [] m)
                         "Notifications retrieved successfully"))
      /\ Pagination.m_total m = 0
      /\ Pagination.has_next m = false
      /\ snd (GatewayList.get_notifications GatewayList.listNotifications
                q w) = w.
Proof.
  intros q w Hp. eexists. split; [reflexivity |].
  repeat split. simpl.
  unfold Pagination.ceil_ratio.
  destruct (match GatewayList.lq_limit q with Some l => l | None => 20 end
            =? 0); simpl; [reflexivity |].
  apply Z.ltb_ge. exact Hp.
Qed.

Lemma source_list_is_empty_witness :
  exists m : Pagination.Meta,
    reply_of (GatewayList.get_notifications GatewayList.listNotifications
                (GatewayList.mkListQuery (Some "U1") None None (Some 3)
                   (Some 0) None None)
                Traffic.gateway_world)
    = Some (mkReply 200
              (Success (GatewayList.mkListData [] m)
                       "Notifications retrieved successfully"))
    /\ Pagination.m_total m = 0
    /\ Pagination.has_next m = false
    /\ snd (GatewayList.get_notifications GatewayList.listNotifications
              (GatewayList.mkListQuery (Some "U1") None None (Some 3)
                 (Some 0) None None)
              Traffic.gateway_world) = Traffic.gateway_world.
Proof.
  apply (source_list_is_empty
           (GatewayList.mkListQuery (Some "U1") None None (Some 3) (Some 0)
              None None) Traffic.gateway_world).
  simpl. lia.
Defined.

(** ** Estimated delivery, for every priority *)

(** X4: for every integer priority, [calculateEstimatedDelivery] aims at
    the instant [max(1, 11 - p) * 5] minutes after the clock, which is at
    least 5 minutes after it, exactly 5 minutes for every priority of 10 or
    more, and never later for a higher priority.  It returns that instant
    when it lies within the range of dates and throws a [RangeError] when
    it does not, as happens for priorities far below 1; either way it
    changes nothing. *)
Theorem estimate_for_any_priority :
  forall (p : Z) (w : World),
    (time_valid (clock w + minutes (Z.max 1 (11 - p) * 5)) = true ->
     Helpers.calculateEstimatedDelivery p w
     = (Resolved (ISO (clock w + minutes (Z.max 1 (11 - p) * 5))), w))
    /\ (time_valid (clock w + minutes (Z.max 1 (11 - p) * 5)) = false ->
        Helpers.calculateEstimatedDelivery p w
        = (Rejected "RangeError: Invalid time value", w))
    /\ clock w + minutes 5 <= clock w + minutes (Z.max 1 (11 - p) * 5)
    /\ (10 <= p ->
        clock w + minutes (Z.max 1 (11 - p) * 5) = clock w + minutes 5)
    /\ (forall q : Z,
          p <= q ->
          clock w + minutes (Z.max 1 (11 - q) * 5)
          <= clock w + minutes (Z.max 1 (11 - p) * 5)).
Proof.
  intros p w.
  assert (E : clock w + Z.max 1 (11 - p) * 5 * 60 * 1000
              = clock w + minutes (Z.max 1 (11 - p) * 5))
    by (unfold minutes; lia).
  unfold Helpers.calculateEstimatedDelivery, bind, Date_now,
    Date_toISOString.
  rewrite E.
  split; [intros ->; reflexivity |].
  split; [intros ->; reflexivity |].
  unfold minutes. repeat split; lia.
Qed.

Lemma estimate_for_any_priority_witness :
  Helpers.calculateEstimatedDelivery 42 Scenario.world0
  = (Resolved (ISO (1700000000000 + minutes 5)), Scenario.world0)
  /\ Helpers.calculateEstimatedDelivery (-28794333323) Scenario.world0
     = (Rejected "RangeError: Invalid time value", Scenario.world0).
Proof.
  split.
  - destruct (estimate_for_any_priority 42 Scenario.world0) as (H & _).
    apply H. reflexivity.
  - destruct (estimate_for_any_priority (-28794333323) Scenario.world0)
      as (_ & H & _).
    apply H. reflexivity.
Defined.

(** A status callback appends one line and changes nothing else. *)
Lemma status_update_logged_frame (id : string) (upd : StatusBody) (w : World) :
  error_log (snd (post_notification_status id upd w)) = error_log w
  /\ entropy (snd (post_notification_status id upd w)) = entropy w
  /\ drawn (snd (post_notification_status id upd w)) = drawn w
  /\ console (snd (post_notification_status id upd w))
     = (console w
        ++ [Updating id
              (mkStatusUpdate (b_status upd)
                 (match b_timestamp upd with
                  | Some t => t
                  | None => ISO (clock w)
                  end)
                 (b_error upd))])%list.
Proof.
  unfold post_notification_status, try_catch, bind, ret,
    Helpers.getNotificationById, Helpers.updateNotificationStatus,
    new_Date_toISOString, console_log.
  destruct (b_timestamp upd); simpl; repeat split.
Qed.

(** ** The gateway under sequences of calls *)

Section GatewayInvariants.

Import GatewayService.

Variable check : string -> option Existing.
Variable getUser : string -> option User.
Variable getTemplate : string -> option Template.
Variable listing : GatewayList.Filters -> GatewayList.ListResult.

(** The three things an intake call can do: answer without creating
    anything, create and enqueue a notification and answer with it, or
    create and enqueue a notification and then fail on an estimate outside
    the range of dates. *)
Lemma intake_effect (req : Request) (w : World) :
  clock (snd (post_notification check getUser getTemplate req w)) = clock w
  /\ entropy (snd (post_notification check getUser getTemplate req w))
     = entropy w
  /\ ((~ GatewayService.passes_checks check getUser getTemplate req
       /\ console (snd (post_notification check getUser getTemplate req w))
          = console w
       /\ error_log (snd (post_notification check getUser getTemplate req w))
          = error_log w
       /\ (drawn w
           <= drawn (snd (post_notification check getUser getTemplate req w)))%nat
       /\ returned_estimate (post_notification check getUser getTemplate req w)
          = None
       /\ exists k,
            option_map code
              (reply_of (post_notification check getUser getTemplate req w))
            = Some k
            /\ (k = 200 \/ k = 400 \/ k = 404))
      \/ (GatewayService.passes_checks check getUser getTemplate req
          /\ console (snd (post_notification check getUser getTemplate req w))
             = (console w
                ++ [Creating (record_of (entropy w (drawn w)) req);
                    Queueing (message_of (entropy w (drawn w)) req)])%list
          /\ drawn (snd (post_notification check getUser getTemplate req w))
             = S (drawn w)
          /\ ((time_valid (estimate_instant req w) = true
               /\ error_log
                    (snd (post_notification check getUser getTemplate req w))
                  = error_log w
               /\ returned_id
                    (post_notification check getUser getTemplate req w)
                  = Some (entropy w (drawn w))
               /\ returned_estimate
                    (post_notification check getUser getTemplate req w)
                  = Some (estimate_instant req w)
               /\ option_map code
                    (reply_of
                       (post_notification check getUser getTemplate req w))
                  = Some 200)
              \/ (time_valid (estimate_instant req w) = false
                  /\ error_log
                       (snd (post_notification check getUser getTemplate
                               req w))
                     = (error_log w ++ ["Error creating notification:"])%list
                  /\ returned_id
                       (post_notification check getUser getTemplate req w)
                     = None
                  /\ returned_estimate
                       (post_notification check getUser getTemplate req w)
                     = None
                  /\ option_map code
                       (reply_of
                          (post_notification check getUser getTemplate
                             req w))
                     = Some 500)))).
Proof.
  unfold GatewayService.passes_checks.
  destruct (check (request_id req)) as [e|] eqn:Hc.
  { rewrite (intake_existing _ _ _ _ _ _ Hc). simpl.
    split; [reflexivity |]. split; [reflexivity |]. left.
    split; [intros [H _]; discriminate |].
    repeat split; try lia. exists 200. auto. }
  destruct (getUser (user_id req)) as [u|] eqn:Hu.
  2:{ rewrite (intake_user_missing _ _ _ _ _ Hc Hu). simpl.
      split; [reflexivity |]. split; [reflexivity |]. left.
      split; [intros [_ (u & t & H & _)]; discriminate |].
      repeat split; try lia. exists 404. auto. }
  destruct (opted_out (notification_type req) u) eqn:Ho.
  { rewrite (intake_skipped _ _ _ _ _ _ Hc Hu Ho). simpl.
    split; [reflexivity |]. split; [reflexivity |]. left.
    split; [intros [_ (u' & t & H & H' & _)]; congruence |].
    repeat split; try lia. exists 200. auto. }
  destruct (getTemplate (template_code req)) as [t|] eqn:Ht.
  2:{ rewrite (intake_template_missing _ _ _ _ _ _ Hc Hu Ho Ht). simpl.
      split; [reflexivity |]. split; [reflexivity |]. left.
      split; [intros [_ (u' & t & _ & _ & H)]; discriminate |].
      repeat split; try lia. exists 400. auto. }
  assert (Hp : None = None (A := Existing)
               /\ exists u0 t0,
                    Some u = Some u0
                    /\ opted_out (notification_type req) u0 = false
                    /\ Some t = Some t0).
  { split; [reflexivity |]. exists u, t. auto. }
  destruct (time_valid (estimate_instant req w)) eqn:Hv.
  - rewrite (intake_accepted _ _ _ _ _ _ _ Hc Hu Ho Ht Hv). simpl.
    split; [reflexivity |]. split; [reflexivity |]. right.
    split; [exact Hp |]. rewrite <- app_assoc. simpl.
    split; [reflexivity |]. split; [reflexivity |]. left.
    repeat split.
  - rewrite (intake_estimate_out_of_range _ _ _ _ _ _ _ Hc Hu Ho Ht Hv).
    simpl.
    split; [reflexivity |]. split; [reflexivity |]. right.
    split; [exact Hp |]. rewrite <- app_assoc. simpl.
    split; [reflexivity |]. split; [reflexivity |]. right.
    repeat split.
Qed.

(** What any call can do to what has been created and enqueued. *)
Lemma perform_effect (c : Call) (w : World) :
  entropy (perform check getUser getTemplate listing w c) = entropy w
  /\ (drawn w <= drawn (perform check getUser getTemplate listing w c))%nat
  /\ exists extra : list Line,
       console (perform check getUser getTemplate listing w c)
       = (console w ++ extra)%list
       /\ ((created extra = [] /\ enqueued extra = [])
           \/ (exists req,
                  created extra = [record_of (entropy w (drawn w)) req]
                  /\ enqueued extra = [message_of (entropy w (drawn w)) req]
                  /\ drawn (perform check getUser getTemplate listing w c)
                     = S (drawn w))).
Proof.
  destruct c as [req | id | id upd | q | ms].
  - simpl.
    destruct (intake_effect req w)
      as (_ & Hen & [(_ & Hc & _ & Hd & _) | (_ & Hc & Hd & _)]).
    + repeat split; try assumption.
      exists []. rewrite app_nil_r. split; [exact Hc | left; split; reflexivity].
    + repeat split; try assumption; try lia.
      eexists. split; [exact Hc |]. right. exists req. repeat split.
      exact Hd.
  - change (perform check getUser getTemplate listing w (StatusQuery id))
      with (snd (Source.get_notification id w)).
    rewrite status_query. simpl. repeat split; try lia.
    exists []. rewrite app_nil_r. split; [reflexivity | left; split; reflexivity].
  - simpl.
    destruct (status_update_logged_frame id upd w) as (He & Hen & Hd & Hc).
    repeat split; try assumption; try lia.
    eexists. split; [exact Hc | left; split; reflexivity].
  - simpl. repeat split; try lia.
    exists []. rewrite app_nil_r. split; [reflexivity | left; split; reflexivity].
  - simpl. repeat split; try lia.
    exists []. rewrite app_nil_r. split; [reflexivity | left; split; reflexivity].
Qed.

End GatewayInvariants.

Lemma tally_length (n : nat) : String.length (Traffic.tally n) = n.
Proof. induction n as [|n IH]; simpl; [reflexivity | now rewrite IH]. Qed.

Lemma tally_collision_free (w : World) :
  entropy w = Traffic.tally -> GatewayService.collision_free w.
Proof.
  intros E i j H. rewrite E in H.
  rewrite <- (tally_length i), <- (tally_length j). now rewrite H.
Qed.

(** X5: whatever the lookups answer, along every sequence of calls to the
    notification routes every created notification has been enqueued
    exactly once, in creation order and with the same identifier, type,
    user, template, variables, priority and metadata, nothing else has been
    enqueued, and every notification was created with status [pending]. *)
Theorem created_and_enqueued_in_step :
  forall (check : string -> option Existing)
         (getUser : string -> option User)
         (getTemplate : string -> option Template)
         (listing : GatewayList.Filters -> GatewayList.ListResult)
         (calls : list GatewayService.Call) (w : World),
    GatewayService.in_step w ->
    Forall (fun n => n_status n = "pending") (created (console w)) ->
    GatewayService.in_step
      (GatewayService.serve check getUser getTemplate listing w calls)
    /\ Forall (fun n => n_status n = "pending")
         (created (console
            (GatewayService.serve check getUser getTemplate listing w calls))).
Proof.
  intros check getUser getTemplate listing calls.
  induction calls as [|c calls IH]; intros w Hs Hp; [split; assumption |].
  simpl. apply IH.
  - destruct (perform_effect check getUser getTemplate listing c w)
      as (_ & _ & extra & Hc & [[Ec Eq] | (req & Ec & Eq & _)]);
      unfold GatewayService.in_step in *;
      rewrite Hc, created_app, enqueued_app, map_app, Ec, Eq, Hs; reflexivity.
  - destruct (perform_effect check getUser getTemplate listing c w)
      as (_ & _ & extra & Hc & [[Ec Eq] | (req & Ec & Eq & _)]);
      rewrite Hc, created_app, Ec; apply Forall_app; split; trivial.
    repeat constructor.
Qed.

Lemma created_and_enqueued_in_step_witness :
  GatewayService.in_step
    (GatewayService.serve Helpers.checkExistingNotification Scenario.users
       Scenario.templates Traffic.backend Traffic.gateway_world
       Traffic.morning)
  /\ List.length
       (enqueued (console
          (GatewayService.serve Helpers.checkExistingNotification
             Scenario.users Scenario.templates Traffic.backend
             Traffic.gateway_world Traffic.morning))) = 2%nat.
Proof.
  split; [| reflexivity].
  apply (created_and_enqueued_in_step Helpers.checkExistingNotification
           Scenario.users Scenario.templates Traffic.backend Traffic.morning
           Traffic.gateway_world).
  - reflexivity.
  - constructor.
Defined.

(** X6: when the random source never produces the same identifier twice,
    no two notifications created along a sequence of calls share a
    [notification_id], whatever the lookups answer and however often a
    [request_id] is repeated. *)
Theorem notification_ids_never_repeat :
  forall (check : string -> option Existing)
         (getUser : string -> option User)
         (getTemplate : string -> option Template)
         (listing : GatewayList.Filters -> GatewayList.ListResult)
         (calls : list GatewayService.Call) (w : World),
    GatewayService.collision_free w ->
    GatewayService.ids_drawn w ->
    NoDup (map n_notification_id (created (console w))) ->
    NoDup (map n_notification_id
             (created (console
                (GatewayService.serve check getUser getTemplate listing w
                   calls))))
    /\ GatewayService.ids_drawn
         (GatewayService.serve check getUser getTemplate listing w calls).
Proof.
  intros check getUser getTemplate listing calls.
  induction calls as [|c calls IH]; intros w Hf Hd Hn; [split; assumption |].
  simpl.
  destruct (perform_effect check getUser getTemplate listing c w)
    as (Hen & Hdr & extra & Hc & Hcase).
  assert (Hold : Forall
            (fun n => exists i,
                 (i < drawn (GatewayService.perform check getUser getTemplate
                               listing w c))%nat
                 /\ n_notification_id n
                    = entropy (GatewayService.perform check getUser
                                 getTemplate listing w c) i)
            (created (console w))).
  { eapply Forall_impl; [| exact Hd]. intros n (i & Hi & Ei).
    exists i. split; [lia | now rewrite Hen]. }
  apply IH.
  - intros i j. rewrite Hen. apply Hf.
  - unfold GatewayService.ids_drawn. rewrite Hc, created_app.
    apply Forall_app. split; [exact Hold |].
    destruct Hcase as [[Ec _] | (req & Ec & _ & Hs)]; rewrite Ec.
    + constructor.
    + constructor; [| constructor].
      exists (drawn w). split; [lia | now rewrite Hen].
  - rewrite Hc, created_app, map_app.
    destruct Hcase as [[Ec _] | (req & Ec & _ & Hs)]; rewrite Ec; simpl.
    + now rewrite app_nil_r.
    + apply NoDup_app; [exact Hn | repeat constructor; intros [] |].
      intros a Ha [<- | []].
      apply in_map_iff in Ha. destruct Ha as (n & En & Hin).
      unfold GatewayService.ids_drawn in Hd.
      rewrite Forall_forall in Hd. destruct (Hd n Hin) as (i & Hi & Ei).
      rewrite En in Ei. apply Hf in Ei. lia.
Qed.

Lemma notification_ids_never_repeat_witness :
  NoDup (map n_notification_id
           (created (console
              (GatewayService.serve Helpers.checkExistingNotification
                 Helpers.getUserById Helpers.getTemplateByCode
                 Traffic.backend Traffic.gateway_world Traffic.morning))))
  /\ List.length
       (created (console
          (GatewayService.serve Helpers.checkExistingNotification
             Helpers.getUserById Helpers.getTemplateByCode
             Traffic.backend Traffic.gateway_world Traffic.morning)))
     = 4%nat.
Proof.
  split; [| reflexivity].
  apply (notification_ids_never_repeat Helpers.checkExistingNotification
           Helpers.getUserById Helpers.getTemplateByCode Traffic.backend
           Traffic.morning Traffic.gateway_world).
  - apply tally_collision_free. reflexivity.
  - constructor.
  - constructor.
Defined.

(** X7: intake is answered with status code 500 exactly when the request
    passes every check but its estimated delivery falls outside the range
    of dates, as for a priority far below 1.  By then the notification has
    been created and enqueued: the console holds both lines, the error log
    has one more line and the reply carries no identifier.  Every other
    intake is answered with status code 200, 400 or 404 and leaves the
    error log as it was. *)
Theorem intake_fails_only_on_estimate :
  forall (check : string -> option Existing)
         (getUser : string -> option User)
         (getTemplate : string -> option Template)
         (req : Request) (w : World),
    (option_map code (reply_of (post_notification check getUser getTemplate
                                  req w)) = Some 500
     <-> GatewayService.passes_checks check getUser getTemplate req
         /\ time_valid (estimate_instant req w) = false)
    /\ (option_map code (reply_of (post_notification check getUser
                                     getTemplate req w)) = Some 500 ->
        console (snd (post_notification check getUser getTemplate req w))
        = (console w
           ++ [Creating (record_of (entropy w (drawn w)) req);
               Queueing (message_of (entropy w (drawn w)) req)])%list
        /\ error_log (snd (post_notification check getUser getTemplate req w))
           = (error_log w ++ ["Error creating notification:"])%list
        /\ returned_id (post_notification check getUser getTemplate req w)
           = None)
    /\ (option_map code (reply_of (post_notification check getUser
                                     getTemplate req w)) <> Some 500 ->
        error_log (snd (post_notification check getUser getTemplate req w))
        = error_log w)
    /\ (exists k : Z,
          option_map code (reply_of (post_notification check getUser
                                       getTemplate req w)) = Some k
          /\ (k = 200 \/ k = 400 \/ k = 404 \/ k = 500)).
Proof.
  intros check getUser getTemplate req w.
  destruct (intake_effect check getUser getTemplate req w)
    as (_ & _ & [(Hn & Hc & He & _ & _ & k & Hk & Hk')
                | (Hp & Hc & _ & [(Hv & He & _ & _ & Hk)
                                 | (Hv & He & Hi & _ & Hk)])]).
  - assert (K5 : option_map code
                   (reply_of (post_notification check getUser getTemplate
                                req w)) <> Some 500).
    { rewrite Hk. intros [= ->]. lia. }
    split; [split; [intros H; contradiction
                   | intros [Hp _]; contradiction] |].
    split; [intros H; contradiction |].
    split; [intros _; exact He |].
    exists k. split; [exact Hk | tauto].
  - assert (K5 : option_map code
                   (reply_of (post_notification check getUser getTemplate
                                req w)) <> Some 500).
    { rewrite Hk. discriminate. }
    split; [split; [intros H; contradiction
                   | intros [_ Hv']; congruence] |].
    split; [intros H; contradiction |].
    split; [intros _; exact He |].
    exists 200. split; [exact Hk | auto].
  - split; [split; [intros _; split; assumption | intros _; exact Hk] |].
    split; [intros _; repeat split; assumption |].
    split; [intros H; contradiction (H Hk) |].
    exists 500. split; [exact Hk | auto].
Qed.

Lemma intake_fails_only_on_estimate_witness :
  option_map code
    (reply_of (Source.post_notification
                 (mkRequest "email" "U1" "welcome" [] "r-7"
                    (Some (-28794333323)) None)
                 Scenario.world0)) = Some 500
  /\ List.length
       (enqueued
          (console (snd (Source.post_notification
                           (mkRequest "email" "U1" "welcome" [] "r-7"
                              (Some (-28794333323)) None)
                           Scenario.world0)))) = 1%nat.
Proof.
  destruct (intake_fails_only_on_estimate Helpers.checkExistingNotification
              Helpers.getUserById Helpers.getTemplateByCode
              (mkRequest "email" "U1" "welcome" [] "r-7"
                 (Some (-28794333323)) None)
              Scenario.world0) as ([_ H] & Hc & _).
  assert (E : option_map code
                (reply_of (Source.post_notification
                             (mkRequest "email" "U1" "welcome" [] "r-7"
                                (Some (-28794333323)) None)
                             Scenario.world0)) = Some 500).
  { apply H. split; [| reflexivity].
    split; [reflexivity |]. eexists. eexists.
    split; [reflexivity |]. split; reflexivity. }
  split; [exact E |].
  destruct (Hc E) as (Hcon & _).
  unfold Source.post_notification. rewrite Hcon. reflexivity.
Defined.

(** X8: an intake reply carries an estimated delivery exactly when the
    call created and enqueued a notification and answered with status code
    200; a reply without an estimate comes from a call that left the
    console as it was (an existing record, a skip, a rejection) or from one
    answered with status code 500. *)
Theorem estimate_only_when_created :
  forall (check : string -> option Existing)
         (getUser : string -> option User)
         (getTemplate : string -> option Template)
         (req : Request) (w : World),
    (returned_estimate (post_notification check getUser getTemplate req w)
     <> None
     <-> (exists (n : NotificationRecord) (m : QueueMessage),
             console (snd (post_notification check getUser getTemplate req w))
             = (console w ++ [Creating n; Queueing m])%list)
         /\ option_map code
              (reply_of (post_notification check getUser getTemplate req w))
            = Some 200)
    /\ (returned_estimate (post_notification check getUser getTemplate req w)
        = None
        <-> console (snd (post_notification check getUser getTemplate req w))
            = console w
            \/ option_map code
                 (reply_of (post_notification check getUser getTemplate req w))
               = Some 500).
Proof.
  intros check getUser getTemplate req w.
  assert (Hneq : forall (l extra : list Line),
             extra <> [] -> (l ++ extra)%list <> l).
  { intros l extra Hne E. apply Hne.
    apply (app_inv_head l). now rewrite app_nil_r. }
  destruct (intake_effect check getUser getTemplate req w)
    as (_ & _ & [(_ & Hc & _ & _ & He & _)
                | (_ & Hc & _ & [(_ & _ & _ & He & Hk)
                                 | (_ & _ & _ & He & Hk)])]).
  - rewrite He, Hc. split; split; try tauto; try congruence.
    intros [(n & m & E) _]. exfalso. symmetry in E. now apply Hneq in E.
  - rewrite He, Hc, Hk. split; split.
    + intros _. split; [eauto | reflexivity].
    + intros _. discriminate.
    + discriminate.
    + intros [E | E]; [now apply Hneq in E | discriminate].
  - rewrite He, Hc, Hk. split; split.
    + intros H. now contradiction H.
    + intros [_ E]. discriminate.
    + intros _. now right.
    + reflexivity.
Qed.

(** X9: the intake handler makes its checks in a fixed order and stops at
    the first that decides: a request whose [request_id] is already known
    is answered from the existing record, whatever the user and template
    services would say; a request for an unknown user, or for a user who
    opted out of the channel, is answered without the template service
    being consulted. *)
Theorem intake_checks_in_order :
  forall (check : string -> option Existing)
         (getUser getUser' : string -> option User)
         (getTemplate getTemplate' : string -> option Template)
         (req : Request) (w : World),
    (forall e, check (request_id req) = Some e ->
               post_notification check getUser getTemplate req w
               = post_notification check getUser' getTemplate' req w
               /\ returned_id
                    (post_notification check getUser getTemplate req w)
                  = Some (e_notification_id e)
               /\ returned_status
                    (post_notification check getUser getTemplate req w)
                  = Some (e_status e)
               /\ snd (post_notification check getUser getTemplate req w) = w)
    /\ (check (request_id req) = None ->
        (getUser (user_id req) = None
         \/ exists u, getUser (user_id req) = Some u
                      /\ opted_out (notification_type req) u = true) ->
        post_notification check getUser getTemplate req w
        = post_notification check getUser getTemplate' req w).
Proof.
  intros check getUser getUser' getTemplate getTemplate' req w. split.
  - intros e He.
    rewrite (intake_existing check getUser getTemplate req w e He),
      (intake_existing check getUser' getTemplate' req w e He).
    repeat split.
  - intros Hc [Hu | (u & Hu & Ho)].
    + now rewrite (intake_user_missing check getUser getTemplate req w Hc Hu),
        (intake_user_missing check getUser getTemplate' req w Hc Hu).
    + now rewrite (intake_skipped check getUser getTemplate req w u Hc Hu Ho),
        (intake_skipped check getUser getTemplate' req w u Hc Hu Ho).
Qed.

Lemma intake_checks_in_order_witness :
  returned_id
    (post_notification Traffic.ledger Scenario.users Scenario.templates
       Scenario.r1 Traffic.gateway_world) = Some "n-1"
  /\ post_notification Helpers.checkExistingNotification Scenario.users
       Scenario.templates Scenario.r1 Traffic.gateway_world
     = post_notification Helpers.checkExistingNotification Scenario.users
         Helpers.getTemplateByCode Scenario.r1 Traffic.gateway_world.
Proof.
  split.
  - destruct (intake_checks_in_order Traffic.ledger Scenario.users
                Helpers.getUserById Scenario.templates
                Helpers.getTemplateByCode Scenario.r1 Traffic.gateway_world)
      as (H & _).
    apply (H (mkExisting "n-1" "queued" (ISO 1690000000000)) eq_refl).
  - destruct (intake_checks_in_order Helpers.checkExistingNotification
                Scenario.users Scenario.users Scenario.templates
                Helpers.getTemplateByCode Scenario.r1 Traffic.gateway_world)
      as (_ & H).
    apply (H eq_refl). right.
    exists (mkUser "U1" "Ada" "ada@example.com" (mkPreferences false true)).
    split; reflexivity.
Defined.

(** * Properties of the user service *)

Section UserRoutes.

Variable getUserByEmail : string -> option UserService.StoredUser.
Variable getUserById : option string -> option UserService.StoredUser.
Variable bcrypt_hash_with : string -> string -> Z -> string.
Variable bcrypt_compare : string -> string -> bool.
Variable base64 : string -> string.



(** X13: creating a user whose email the lookup already knows is answered
    with status code 409 and changes nothing: no salt or identifier is
    drawn and nothing is stored.  Otherwise exactly one user is stored,
    under the identifier the reply returns, and the stored password is the
    bcrypt hash of the submitted one at 10 rounds. *)
Theorem create_user_conflict_or_stored :
  forall (body : UserService.CreateBody) (w : UserService.World),
    (forall u,
        getUserByEmail (UserService.cb_email body) = Some u ->
        UserService.create_user getUserByEmail bcrypt_hash_with body w
        = (Resolved (mkReply 409
                       (Failure "Conflict"
                                "User with this email already exists")), w))
    /\ (getUserByEmail (UserService.cb_email body) = None ->
        exists d,
          fst (UserService.create_user getUserByEmail bcrypt_hash_with body w)
          = Resolved (mkReply 200 (Success d "User created successfully"))
          /\ UserService.cd_email d = UserService.cb_email body
          /\ console (snd (UserService.create_user getUserByEmail
                             bcrypt_hash_with body w))
             = (console w
                ++ [UserService.CreatingUser
                      (UserService.mkNewUser (UserService.cd_user_id d)
                         (UserService.cb_name body)
                         (UserService.cb_email body)
                         (UserService.cb_push_token body)
                         (UserService.cb_preferences body)
                         (bcrypt_hash_with (entropy w (drawn w))
                            (UserService.cb_password body) 10))])%list
          /\ UserService.cd_user_id d = entropy w (S (drawn w))
          /\ drawn (snd (UserService.create_user getUserByEmail
                           bcrypt_hash_with body w)) = S (S (drawn w))).
Proof.
  intros body w.
  unfold UserService.create_user, UserService.bcrypt_hash,
    UserService.Helpers.createUser, try_catch, bind, ret, uuidv4,
    console_log, new_Date_toISOString.
  split.
  - intros u Hu. now rewrite Hu.
  - intros Hu. rewrite Hu. simpl. eexists. repeat split.
Qed.

(** The three ways a password change can end. *)
Lemma change_password_frame
      (lookup : option string -> option UserService.StoredUser)
      (hash : string -> string -> Z -> string)
      (compare : string -> string -> bool)
      (user_id : option string) (body : UserService.PasswordBody)
      (w : UserService.World) :
  (lookup user_id = None ->
   UserService.change_password lookup hash compare user_id body w
   = (Resolved (mkReply 404
                  (Failure "Not Found"
                     ("User with ID " ++ UserService.show user_id
                      ++ " not found"))), w))
  /\ (forall u,
        lookup user_id = Some u ->
        compare (UserService.pb_current_password body)
                (UserService.su_password u) = false ->
        UserService.change_password lookup hash compare user_id body w
        = (Resolved (mkReply 400
                       (Failure "Invalid Current Password"
                                "Current password is incorrect")), w))
  /\ (forall u,
        lookup user_id = Some u ->
        compare (UserService.pb_current_password body)
                (UserService.su_password u) = true ->
        fst (UserService.change_password lookup hash compare user_id body w)
        = Resolved (mkReply 200
                      (Acknowledged "Password changed successfully"))
        /\ console (snd (UserService.change_password lookup hash compare
                           user_id body w))
           = (console w
              ++ [UserService.UpdatingUser user_id
                    (UserService.mkUpdates None None None None
                       (Some (hash (entropy w (drawn w))
                                (UserService.pb_new_password body)
                                10)))])%list).
Proof.
  unfold UserService.change_password, UserService.bcrypt_hash,
    UserService.Helpers.updateUser, try_catch, bind, ret, uuidv4,
    console_log.
  split; [| split].
  - intros Hu. now rewrite Hu.
  - intros u Hu Hc. now rewrite Hu, Hc.
  - intros u Hu Hc. rewrite Hu, Hc. simpl. split; reflexivity.
Qed.

(** X14: changing a password stores something only when the user exists
    and bcrypt accepts the current password against the stored hash; what
    is stored is then one update that sets the password to the bcrypt hash
    of the new one at 10 rounds and no other field.  A wrong current
    password is answered with status code 400, an unknown user with 404,
    and both leave the world as it was. *)
Theorem change_password_guarded :
  forall (user_id : option string) (body : UserService.PasswordBody)
         (w : UserService.World),
    (getUserById user_id = None ->
     UserService.change_password getUserById bcrypt_hash_with bcrypt_compare
       user_id body w
     = (Resolved (mkReply 404
                    (Failure "Not Found"
                       ("User with ID " ++ UserService.show user_id
                        ++ " not found"))), w))
    /\ (forall u,
          getUserById user_id = Some u ->
          bcrypt_compare (UserService.pb_current_password body)
                         (UserService.su_password u) = false ->
          UserService.change_password getUserById bcrypt_hash_with
            bcrypt_compare user_id body w
          = (Resolved (mkReply 400
                         (Failure "Invalid Current Password"
                                  "Current password is incorrect")), w))
    /\ (forall u,
          getUserById user_id = Some u ->
          bcrypt_compare (UserService.pb_current_password body)
                         (UserService.su_password u) = true ->
          fst (UserService.change_password getUserById bcrypt_hash_with
                 bcrypt_compare user_id body w)
          = Resolved (mkReply 200
                        (Acknowledged "Password changed successfully"))
          /\ console (snd (UserService.change_password getUserById
                             bcrypt_hash_with bcrypt_compare user_id body w))
             = (console w
                ++ [UserService.UpdatingUser user_id
                      (UserService.mkUpdates None None None None
                         (Some (bcrypt_hash_with (entropy w (drawn w))
                                  (UserService.pb_new_password body)
                                  10)))])%list).
Proof.
  intros user_id body w.
  unfold UserService.change_password, UserService.bcrypt_hash,
    UserService.Helpers.updateUser, try_catch, bind, ret, uuidv4,
    console_log.
  split; [| split].
  - intros Hu. now rewrite Hu.
  - intros u Hu Hc. now rewrite Hu, Hc.
  - intros u Hu Hc. rewrite Hu, Hc. simpl. split; reflexivity.
Qed.

(** X15: reading or updating a user the lookup does not know is answered
    with status code 404 and "Not Found" and changes nothing; updating a
    user it knows stores one update that carries the submitted fields and
    never a password. *)
Theorem user_lookup_guards_update :
  forall (user_id : string) (body : UserService.UpdateBody)
         (w : UserService.World),
    (getUserById (Some user_id) = None ->
     UserService.get_user getUserById user_id w
     = (Resolved (mkReply 404
                    (Failure "Not Found"
                       ("User with ID " ++ user_id ++ " not found"))), w)
     /\ UserService.update_user getUserById user_id body w
        = (Resolved (mkReply 404
                       (Failure "Not Found"
                          ("User with ID " ++ user_id ++ " not found"))), w))
    /\ (forall u,
          getUserById (Some user_id) = Some u ->
          UserService.get_user getUserById user_id w
          = (Resolved (mkReply 200
                         (Success u "User retrieved successfully")), w)
          /\ console (snd (UserService.update_user getUserById user_id
                             body w))
             = (console w
                ++ [UserService.UpdatingUser (Some user_id)
                      (UserService.mkUpdates (UserService.ub_name body)
                         (UserService.ub_email body)
                         (UserService.ub_push_token body)
                         (UserService.ub_preferences body) None)])%list).
Proof.
  intros user_id body w.
  unfold UserService.get_user, UserService.update_user,
    UserService.Helpers.updateUser, try_catch, bind, ret, console_log,
    new_Date_toISOString.
  split.
  - intros Hu. now rewrite Hu.
  - intros u Hu. rewrite Hu. simpl. split; reflexivity.
Qed.

End UserRoutes.



Lemma create_user_conflict_or_stored_witness :
  UserService.create_user Traffic.by_email Traffic.toy_hash
    Traffic.ada_signs_up Traffic.user_world
  = (Resolved (mkReply 409
                 (Failure "Conflict" "User with this email already exists")),
     Traffic.user_world)
  /\ exists d,
       fst (UserService.create_user UserService.Helpers.getUserByEmail
              Traffic.toy_hash Traffic.ada_signs_up Traffic.user_world)
       = Resolved (mkReply 200 (Success d "User created successfully"))
       /\ UserService.cd_user_id d = "i"
       /\ map UserService.nu_password
            (UserService.created_users
               (console (snd (UserService.create_user
                                UserService.Helpers.getUserByEmail
                                Traffic.toy_hash Traffic.ada_signs_up
                                Traffic.user_world))))
          = ["hash::secret"].
Proof.
  split.
  - destruct (create_user_conflict_or_stored Traffic.by_email
                Traffic.toy_hash Traffic.ada_signs_up Traffic.user_world)
      as (H & _).
    apply (H Traffic.ada). reflexivity.
  - destruct (create_user_conflict_or_stored
                UserService.Helpers.getUserByEmail Traffic.toy_hash
                Traffic.ada_signs_up Traffic.user_world) as (_ & H).
    destruct (H eq_refl) as (d & Hr & _ & Hc & Hi & _).
    exists d. split; [exact Hr | split; [exact Hi |]].
    rewrite Hc. reflexivity.
Defined.

Lemma change_password_guarded_witness :
  UserService.change_password Traffic.by_id Traffic.toy_hash
    Traffic.toy_compare None
    (UserService.mkPasswordBody "secret" "new-secret") Traffic.user_world
  = (Resolved (mkReply 404
                 (Failure "Not Found" "User with ID undefined not found")),
     Traffic.user_world)
  /\ UserService.change_password Traffic.by_id Traffic.toy_hash
       Traffic.toy_compare (Some "U1")
       (UserService.mkPasswordBody "sekret" "new-secret") Traffic.user_world
     = (Resolved (mkReply 400
                    (Failure "Invalid Current Password"
                             "Current password is incorrect")),
        Traffic.user_world)
  /\ fst (UserService.change_password Traffic.by_id Traffic.toy_hash
            Traffic.toy_compare (Some "U1")
            (UserService.mkPasswordBody "secret" "new-secret")
            Traffic.user_world)
     = Resolved (mkReply 200 (Acknowledged "Password changed successfully")).
Proof.
  split; [| split].
  - destruct (change_password_guarded Traffic.by_id Traffic.toy_hash
                Traffic.toy_compare None
                (UserService.mkPasswordBody "secret" "new-secret")
                Traffic.user_world) as (H & _).
    apply H. reflexivity.
  - destruct (change_password_guarded Traffic.by_id Traffic.toy_hash
                Traffic.toy_compare (Some "U1")
                (UserService.mkPasswordBody "sekret" "new-secret")
                Traffic.user_world) as (_ & H & _).
    apply (H Traffic.ada); reflexivity.
  - destruct (change_password_guarded Traffic.by_id Traffic.toy_hash
                Traffic.toy_compare (Some "U1")
                (UserService.mkPasswordBody "secret" "new-secret")
                Traffic.user_world) as (_ & _ & H).
    apply (H Traffic.ada); reflexivity.
Defined.

Lemma user_lookup_guards_update_witness :
  UserService.get_user Traffic.by_id "U2" Traffic.user_world
  = (Resolved (mkReply 404
                 (Failure "Not Found" "User with ID U2 not found")),
     Traffic.user_world)
  /\ UserService.get_user Traffic.by_id "U1" Traffic.user_world
     = (Resolved (mkReply 200
                    (Success Traffic.ada "User retrieved successfully")),
        Traffic.user_world).
Proof.
  split.
  - destruct (user_lookup_guards_update Traffic.by_id "U2"
                (UserService.mkUpdateBody None None None None)
                Traffic.user_world) as (H & _).
    apply H. reflexivity.
  - destruct (user_lookup_guards_update Traffic.by_id "U1"
                (UserService.mkUpdateBody None None None None)
                Traffic.user_world) as (_ & H).
    apply (H Traffic.ada). reflexivity.
Defined.

Lemma created_users_app (l1 l2 : list UserService.Line) :
  UserService.created_users (l1 ++ l2)
  = (UserService.created_users l1 ++ UserService.created_users l2)%list.
Proof.
  induction l1 as [|[u|i u] l1 IH]; simpl; try rewrite IH; reflexivity.
Qed.

(** X16: with the lookup of the source, which knows no email, the conflict
    branch is never taken: submitting the same body twice stores two users
    with the same email, and when the random source never repeats itself
    the two calls return different identifiers. *)
Theorem source_create_never_conflicts :
  forall (bcrypt_hash_with : string -> string -> Z -> string)
         (body : UserService.CreateBody) (w : UserService.World),
    (forall i j, entropy w i = entropy w j -> i = j) ->
    let first := UserService.create_user UserService.Helpers.getUserByEmail
                   bcrypt_hash_with body w in
    let second := UserService.create_user UserService.Helpers.getUserByEmail
                    bcrypt_hash_with body (snd first) in
    exists d1 d2,
      fst first = Resolved (mkReply 200 (Success d1 "User created successfully"))
      /\ fst second
         = Resolved (mkReply 200 (Success d2 "User created successfully"))
      /\ UserService.cd_user_id d1 <> UserService.cd_user_id d2
      /\ map UserService.nu_email
           (UserService.created_users (console (snd second)))
         = (map UserService.nu_email
              (UserService.created_users (console w))
            ++ [UserService.cb_email body; UserService.cb_email body])%list.
Proof.
  intros hash body w Hinj first second. subst first second.
  unfold UserService.create_user, UserService.bcrypt_hash,
    UserService.Helpers.createUser, UserService.Helpers.getUserByEmail,
    try_catch, bind, ret, uuidv4, console_log, new_Date_toISOString.
  simpl. eexists. eexists. split; [reflexivity |]. split; [reflexivity |].
  simpl. split.
  - intros E. apply Hinj in E. lia.
  - rewrite !created_users_app, !map_app. simpl.
    now rewrite <- app_assoc.
Qed.

Lemma source_create_never_conflicts_witness :
  exists d1 d2,
    fst (UserService.create_user UserService.Helpers.getUserByEmail
           Traffic.toy_hash Traffic.ada_signs_up Traffic.user_world)
    = Resolved (mkReply 200 (Success d1 "User created successfully"))
    /\ fst (UserService.create_user UserService.Helpers.getUserByEmail
              Traffic.toy_hash Traffic.ada_signs_up
              (snd (UserService.create_user
                      UserService.Helpers.getUserByEmail Traffic.toy_hash
                      Traffic.ada_signs_up Traffic.user_world)))
       = Resolved (mkReply 200 (Success d2 "User created successfully"))
    /\ UserService.cd_user_id d1 <> UserService.cd_user_id d2
    /\ map UserService.nu_email
         (UserService.created_users
            (console
               (snd (UserService.create_user
                       UserService.Helpers.getUserByEmail Traffic.toy_hash
                       Traffic.ada_signs_up
                       (snd (UserService.create_user
                               UserService.Helpers.getUserByEmail
                               Traffic.toy_hash Traffic.ada_signs_up
                               Traffic.user_world))))))
       = (map UserService.nu_email
            (UserService.created_users (console Traffic.user_world))
          ++ ["ada@example.com"; "ada@example.com"])%list.
Proof.
  apply (source_create_never_conflicts Traffic.toy_hash Traffic.ada_signs_up
           Traffic.user_world).
  intros i j H. simpl in H.
  rewrite <- (tally_length i), <- (tally_length j). now rewrite H.
Defined.

(** X17: the list route of the user service pages like the gateway's: it
    answers with the users and the total its helper returns and leaves the
    world as it was, and for a non-negative total and a limit of at least 1
    [has_next] is true exactly when users remain beyond the requested page
    and [has_previous] exactly when the page is beyond the first. *)
Theorem user_list_reply_pages :
  forall (listUsers : UserService.UserFilters -> UserService.UserList)
         (q : UserService.UserQuery) (w : UserService.World),
    let page := match UserService.uq_page q with Some p => p | None => 1 end in
    let limit :=
      match UserService.uq_limit q with Some l => l | None => 20 end in
    let result :=
      listUsers
        (UserService.mkUserFilters page limit (UserService.uq_search q)
           (UserService.uq_email_enabled q) (UserService.uq_push_enabled q)
           (UserService.uq_created_after q)
           (UserService.uq_created_before q)) in
    0 <= UserService.users_total result ->
    1 <= limit ->
    exists m : Pagination.Meta,
      UserService.list_users listUsers q w
      = (Resolved (mkReply 200
                     (Success (UserService.mkUserListData
                                 (UserService.users result) m)
                              "Users retrieved successfully")), w)
      /\ Pagination.m_total m = UserService.users_total result
      /\ (Pagination.has_next m = true
          <-> page * limit < UserService.users_total result)
      /\ (Pagination.has_previous m = true <-> 1 < page).
Proof.
  intros listUsers q w page limit result Ht Hl.
  exists (Pagination.meta (UserService.users_total result) limit page).
  destruct (meta_has_next (UserService.users_total result) limit page Ht Hl)
    as [Hn Hp].
  repeat split; try apply Hn; try apply Hp.
Qed.

Lemma user_list_reply_pages_witness :
  exists m : Pagination.Meta,
    UserService.list_users (fun _ => UserService.mkUserList [] 41)
      (UserService.mkUserQuery (Some 3) (Some 20) None None None None None)
      Traffic.user_world
    = (Resolved (mkReply 200
                   (Success (UserService.mkUserListData [] m)
                            "Users retrieved successfully")),
       Traffic.user_world)
    /\ Pagination.has_next m = false
    /\ Pagination.has_previous m = true.
Proof.
  destruct (user_list_reply_pages (fun _ => UserService.mkUserList [] 41)
              (UserService.mkUserQuery (Some 3) (Some 20) None None None
                 None None)
              Traffic.user_world ltac:(vm_compute; discriminate)
              ltac:(vm_compute; discriminate))
    as (m & Hr & _ & Hn & Hp).
  exists m. split; [exact Hr | split].
  - destruct (Pagination.has_next m) eqn:E; [| reflexivity].
    destruct Hn as [Hn _]. specialize (Hn eq_refl).
    vm_compute in Hn. discriminate.
  - apply Hp. vm_compute. reflexivity.
Defined.

(** ** The error handler *)

(** X18: whatever error it is given, the error handler either sends a
    reply with [success] false, a status between 100 and 599, a non-empty
    [error] and [message], and [details] exactly when the error is a
    validation error; or it sends nothing because [reply.status] throws,
    which happens only in the default branch, for an error that is not a
    validation error, carries neither JWT code, and has a status code other
    than 0 outside 100..599. *)
Theorem error_reply_well_formed :
  forall e : UserService.FastifyError,
    match UserService.errorHandler e with
    | UserService.Sent r =>
        UserService.er_success r = false
        /\ 100 <= UserService.er_status r <= 599
        /\ UserService.er_error r <> ""
        /\ UserService.er_message r <> ""
        /\ UserService.er_details r = UserService.fe_validation e
    | UserService.BadStatusCode n =>
        UserService.fe_validation e = None
        /\ UserService.code_is e "FST_JWT_NO_AUTHORIZATION_IN_HEADER" = false
        /\ UserService.code_is e "FST_JWT_AUTHORIZATION_TOKEN_EXPIRED" = false
        /\ UserService.fe_statusCode e = Some n
        /\ n <> 0
        /\ (n < 100 \/ 599 < n)
    end.
Proof.
  assert (Hs : forall s d, d <> "" -> UserService.string_or s d <> "").
  { intros [v|] d Hd; simpl; [| exact Hd].
    destruct (v =? "")%string eqn:E; [exact Hd |].
    now apply String.eqb_neq in E. }
  intros e. unfold UserService.errorHandler.
  destruct (UserService.fe_validation e) as [d|]; simpl.
  { repeat split; first [lia | discriminate]. }
  destruct (UserService.code_is e "FST_JWT_NO_AUTHORIZATION_IN_HEADER")
    eqn:J1; simpl; [repeat split; first [lia | discriminate] |].
  destruct (UserService.code_is e "FST_JWT_AUTHORIZATION_TOKEN_EXPIRED")
    eqn:J2; simpl; [repeat split; first [lia | discriminate] |].
  destruct (UserService.fe_statusCode e) as [z|] eqn:Ez; simpl.
  - destruct (z =? 429) eqn:E429; simpl;
      [repeat split; first [lia | discriminate] |].
    unfold UserService.status_send, UserService.status_accepted.
    destruct (z =? 0) eqn:E0; simpl.
    + repeat split; first [lia | apply Hs; discriminate].
    + apply Z.eqb_neq in E0.
      destruct ((100 <=? z) && (z <=? 599)) eqn:Er.
      * apply andb_prop in Er. destruct Er as [Ea Eb].
        apply Z.leb_le in Ea. apply Z.leb_le in Eb. simpl.
        repeat split; first [lia | apply Hs; discriminate].
      * apply andb_false_iff in Er.
        repeat split; try assumption.
        destruct Er as [Er | Er]; apply Z.leb_gt in Er; lia.
  - repeat split; first [lia | apply Hs; discriminate].
Qed.

(** X19: the status the error handler replies with is decided by three
    things only, in this order: 400 for a validation error, whatever its
    code and status code; otherwise 401 for either of the two JWT error
    codes, whatever the status code; otherwise the error's own status code
    when it has one that is not 0 (429 included), and 500 when it has none,
    provided that status lies between 100 and 599; outside that range the
    handler sends nothing.  The rate-limit branch changes the body only: it
    replaces the error's own name and message. *)
Theorem error_status_precedence :
  forall e : UserService.FastifyError,
    UserService.sent_status (UserService.errorHandler e)
    = match UserService.fe_validation e with
      | Some _ => Some 400
      | None =>
          if UserService.code_is e "FST_JWT_NO_AUTHORIZATION_IN_HEADER"
             || UserService.code_is e "FST_JWT_AUTHORIZATION_TOKEN_EXPIRED"
          then Some 401
          else if UserService.status_accepted
                    (UserService.number_or (UserService.fe_statusCode e) 500)
               then Some (UserService.number_or
                            (UserService.fe_statusCode e) 500)
               else None
      end
    /\ (forall r,
          UserService.errorHandler e = UserService.Sent r ->
          UserService.er_error r = "Too Many Requests" ->
          UserService.fe_name e <> Some "Too Many Requests" ->
          UserService.fe_statusCode e = Some 429
          /\ UserService.fe_validation e = None
          /\ UserService.er_message r = "Rate limit exceeded").
Proof.
  intros e. unfold UserService.errorHandler.
  destruct (UserService.fe_validation e) as [d|]; simpl.
  { split; [reflexivity |]. intros r [= <-]. discriminate. }
  destruct (UserService.code_is e "FST_JWT_NO_AUTHORIZATION_IN_HEADER");
    simpl; [split; [reflexivity | intros r [= <-]; discriminate] |].
  destruct (UserService.code_is e "FST_JWT_AUTHORIZATION_TOKEN_EXPIRED");
    simpl; [split; [reflexivity | intros r [= <-]; discriminate] |].
  assert (Hname : forall r n,
             UserService.status_send n false
               (UserService.string_or (UserService.fe_name e)
                                      "Internal Server Error")
               (UserService.string_or (UserService.fe_message e)
                                      "Something went wrong") None
             = UserService.Sent r ->
             UserService.er_error r = "Too Many Requests" ->
             UserService.fe_name e = Some "Too Many Requests").
  { intros r n. unfold UserService.status_send.
    destruct (UserService.status_accepted n); [| discriminate].
    intros [= <-]. simpl.
    destruct (UserService.fe_name e) as [v|]; simpl; [| discriminate].
    destruct (v =? "")%string; [discriminate | now intros ->]. }
  assert (Hst : forall n s1 s2,
             UserService.sent_status
               (UserService.status_send n false s1 s2 None)
             = if UserService.status_accepted n then Some n else None).
  { intros n s1 s2. unfold UserService.status_send.
    destruct (UserService.status_accepted n); reflexivity. }
  destruct (UserService.fe_statusCode e) as [z|] eqn:Ez.
  - destruct (z =? 429) eqn:E.
    + apply Z.eqb_eq in E. subst z. split; [reflexivity |].
      intros r [= <-] _ _. repeat split.
    + split; [apply Hst |].
      intros r Hr He Hn. exfalso. apply Hn. eapply Hname; eassumption.
  - split; [apply Hst |].
    intros r Hr He Hn. exfalso. apply Hn. eapply Hname; eassumption.
Qed.

Lemma error_status_precedence_witness :
  UserService.sent_status
    (UserService.errorHandler
       (UserService.mkFastifyError (Some ["body/email must match format"])
          (Some "FST_JWT_AUTHORIZATION_TOKEN_EXPIRED") (Some 429)
          (Some "Error") (Some "boom"))) = Some 400
  /\ UserService.sent_status
       (UserService.errorHandler
          (UserService.mkFastifyError None None (Some 99) (Some "Error")
             (Some "boom"))) = None
  /\ forall r,
       UserService.errorHandler
         (UserService.mkFastifyError None None (Some 429) (Some "Error")
            (Some "boom")) = UserService.Sent r ->
       UserService.er_error r = "Too Many Requests" ->
       UserService.er_message r = "Rate limit exceeded".
Proof.
  split; [| split].
  - destruct (error_status_precedence
                (UserService.mkFastifyError
                   (Some ["body/email must match format"])
                   (Some "FST_JWT_AUTHORIZATION_TOKEN_EXPIRED") (Some 429)
                   (Some "Error") (Some "boom"))) as (H & _).
    exact H.
  - destruct (error_status_precedence
                (UserService.mkFastifyError None None (Some 99)
                   (Some "Error") (Some "boom"))) as (H & _).
    exact H.
  - intros r Hr He.
    destruct (error_status_precedence
                (UserService.mkFastifyError None None (Some 429)
                   (Some "Error") (Some "boom"))) as (_ & H).
    apply (H r Hr He). discriminate.
Defined.

(** X20: the change-password route has no [user_id] in its path, so its
    handler reads [undefined] from [request.params]; with the lookup of the
    source, which answers every identifier, the request is then never
    rejected as unknown: it is decided by bcrypt's comparison with the
    placeholder hash alone, and a password that passes is stored for the
    user [undefined]. *)
Theorem change_password_targets_no_user :
  forall (bcrypt_hash_with : string -> string -> Z -> string)
         (bcrypt_compare : string -> string -> bool)
         (body : UserService.PasswordBody) (w : UserService.World),
    (bcrypt_compare (UserService.pb_current_password body)
                    "$2a$10$12$5$6$7$8$9$4$3$2$7" = false ->
     UserService.change_password UserService.Helpers.getUserById
       bcrypt_hash_with bcrypt_compare None body w
     = (Resolved (mkReply 400
                    (Failure "Invalid Current Password"
                             "Current password is incorrect")), w))
    /\ (bcrypt_compare (UserService.pb_current_password body)
                       "$2a$10$12$5$6$7$8$9$4$3$2$7" = true ->
        fst (UserService.change_password UserService.Helpers.getUserById
               bcrypt_hash_with bcrypt_compare None body w)
        = Resolved (mkReply 200
                      (Acknowledged "Password changed successfully"))
        /\ console (snd (UserService.change_password
                           UserService.Helpers.getUserById bcrypt_hash_with
                           bcrypt_compare None body w))
           = (console w
              ++ [UserService.UpdatingUser None
                    (UserService.mkUpdates None None None None
                       (Some (bcrypt_hash_with (entropy w (drawn w))
                                (UserService.pb_new_password body)
                                10)))])%list).
Proof.
  intros hash compare body w.
  destruct (change_password_frame UserService.Helpers.getUserById hash
              compare None body w) as (_ & Hf & Ht).
  split.
  - intros Hc. apply (Hf _ eq_refl Hc).
  - intros Hc. apply (Ht _ eq_refl Hc).
Qed.

Lemma change_password_targets_no_user_witness :
  UserService.change_password UserService.Helpers.getUserById
    Traffic.toy_hash (fun _ _ => false) None
    (UserService.mkPasswordBody "password" "new-secret") Traffic.user_world
  = (Resolved (mkReply 400
                 (Failure "Invalid Current Password"
                          "Current password is incorrect")),
     Traffic.user_world)
  /\ map (fun l => match l with
                   | UserService.UpdatingUser id _ => id
                   | UserService.CreatingUser _ => Some "created"
                   end)
       (console (snd (UserService.change_password
                        UserService.Helpers.getUserById Traffic.toy_hash
                        (fun _ _ => true) None
                        (UserService.mkPasswordBody "password" "new-secret")
                        Traffic.user_world)))
     = [None].
Proof.
  split.
  - destruct (change_password_targets_no_user Traffic.toy_hash
                (fun _ _ => false)
                (UserService.mkPasswordBody "password" "new-secret")
                Traffic.user_world) as (H & _).
    apply H. reflexivity.
  - destruct (change_password_targets_no_user Traffic.toy_hash
                (fun _ _ => true)
                (UserService.mkPasswordBody "password" "new-secret")
                Traffic.user_world) as (_ & H).
    destruct (H eq_refl) as (_ & Hc). rewrite Hc. reflexivity.
Defined.
